(** * rmrl: the page model of [rmrl/document.py]

    A shallow embedding of [DocumentPage] and [DocumentPageLayer]: the
    version-6 block adapter ([get_layers], [to_segment]), page construction
    and layer loading ([__init__], [load_layers]), annotation clustering
    ([grouping_func], [get_grouped_annotations]) and pen dispatch
    ([paint_strokes], [render_to_painter]).

    Python floats are IEEE binary64 numbers, here Rocq's primitive floats.
    Python exceptions are an explicit result type.  The collaborators the
    module imports (the block reader, the legacy reader, the JSON loader, the
    pen classes, the canvas, the path geometry) are interfaces. *)

From Stdlib Require Import ZArith List Floats Lia Bool.
From stdpp Require Import gmap strings list pretty.
From Equations Require Import Equations.

Set Warnings "-inexact-float".

(* ===================================================================== *)
(** * Part I: definitions *)
(* ===================================================================== *)

(** ** Python results *)

Module Py.

(** The exception classes that occur.  [FormatMismatch] is the error kind
    the design document names; no statement of [document.py] raises it. *)
Inductive exn : Set :=
| TypeError
| IndexError
| UnboundLocalError
| AssertionError
| FileNotFoundError
| ValueError
| FormatMismatch.

Inductive result (A : Type) : Type :=
| Ok (a : A)
| Raise (e : exn).
Arguments Ok {A} a.
Arguments Raise {A} e.

Definition bind {A B} (m : result A) (k : A -> result B) : result B :=
  match m with
  | Ok a => k a
  | Raise e => Raise e
  end.

Definition is_ok {A} (m : result A) : bool :=
  match m with Ok _ => true | Raise _ => false end.

(** [list(map(f, xs, ys))]: pairs are taken until the shorter argument is
    exhausted; the first call that raises aborts the whole expression. *)
Fixpoint map2 {A B C} (f : A -> B -> result C) (xs : list A) (ys : list B)
  : result (list C) :=
  match xs, ys with
  | x :: xs', y :: ys' =>
      bind (f x y) (fun z => bind (map2 f xs' ys') (fun zs => Ok (z :: zs)))
  | _, _ => Ok []
  end.

(** [l[i]] for a Python list and a Python int: negative indices count
    from the end, anything else out of range raises [IndexError]. *)
Definition index {A} (l : list A) (i : Z) : result A :=
  let n := Z.of_nat (length l) in
  let j := if (i <? 0)%Z then (n + i)%Z else i in
  if ((0 <=? j) && (j <? n))%Z
  then match l !! Z.to_nat j with
       | Some a => Ok a
       | None => Raise IndexError
       end
  else Raise IndexError.

End Py.

#[global] Instance result_bind : MBind Py.result :=
  fun A B k m => Py.bind m k.
#[global] Instance result_ret : MRet Py.result := @Py.Ok.

(** ** The stroke records of [rmrl.lines] and [rmscene] *)

(** Modelled from the spec: rmscene's [Point], a raw device-space sample
    [{x, y; pressure, width, speed, direction}] of floats. *)
Record Point : Set := mkPoint {
  point_x : float;
  point_y : float;
  point_speed : float;
  point_direction : float;
  point_width : float;
  point_pressure : float
}.

(** [lines.Segment], built in [to_segment] by keyword. *)
Record Segment : Set := mkSegment {
  segment_x : float;
  segment_y : float;
  segment_speed : float;
  segment_direction : float;
  segment_width : float;
  segment_pressure : float
}.

(** [lines.Stroke], built positionally in [get_layers] and unpacked in
    [paint_strokes] as [pen, color, unk1, width, unk2, segments].  Pen and
    color are the raw integer codes. *)
Record Stroke : Set := mkStroke {
  stroke_pen : Z;
  stroke_color : Z;
  stroke_unk1 : option Z;
  stroke_width : float;
  stroke_unk2 : option Z;
  stroke_segments : list Segment
}.

(** [lines.Layer], built as [Layer(current_strokes, current_layer)] and
    unpacked in [load_layers] as [layerstrokes, layer_name]: a two-field
    tuple. *)
Record Layer : Set := mkLayer {
  layer_strokes : list Stroke;
  layer_name : string
}.

(** The payload of a line item, [block.item.value]. *)
Record Line : Set := mkLine {
  line_color : Z;
  line_tool : Z;
  line_points : list Point;
  line_thickness_scale : float
}.

(** The blocks [read_blocks] yields, as [get_layers] tells them apart. *)
Inductive Block : Set :=
| SceneLineItemBlock (value : option Line)
| TreeNodeBlock (label : string)
| OtherBlock (cls : string).

(** ** The version-6 adapter *)

Definition to_segment (point : Point) : Segment :=
  {| segment_x := (point_x point * 0.7 + 1404 / 2.0 - 40)%float;
     segment_y := (point_y point * 0.7)%float;
     segment_speed := point_speed point;
     segment_direction := point_direction point;
     segment_width := (point_width point / 4.0)%float;
     segment_pressure := point_pressure point |}.

Definition stroke_of_line (value : Line) : Stroke :=
  mkStroke (line_tool value) (line_color value) None
           (line_thickness_scale value) None
           (map to_segment (line_points value)).

(** The local variables of [get_layers] while it scans, and what it has
    printed. *)
Record Scan : Set := mkScan {
  layers : list Layer;
  current_layer : string;
  current_strokes : list Stroke;
  printed : list string
}.

Definition scan_init : Scan := mkScan [] "" [] [].

(** One iteration of [for block in blocks]. *)
Definition scan_block (s : Scan) (block : Block) : Scan :=
  match block with
  | SceneLineItemBlock None => s
  | SceneLineItemBlock (Some value) =>
      mkScan (layers s) (current_layer s)
             (current_strokes s ++ [stroke_of_line value]) (printed s)
  | TreeNodeBlock label =>
      if String.eqb (current_layer s) label then s
      else mkScan (layers s ++ [mkLayer (current_strokes s) (current_layer s)])
                  label [] (printed s)
  | OtherBlock cls =>
      mkScan (layers s) (current_layer s) (current_strokes s)
             (printed s ++ ["warning: not converting block: " +:+ cls])
  end.

Definition scan_blocks (blocks : list Block) : Scan :=
  fold_left scan_block blocks scan_init.

(** The layers appended by the end of [get_layers], before [layers[1:]]. *)
Definition sealed_layers (blocks : list Block) : list Layer :=
  let s := scan_blocks blocks in
  layers s ++ [mkLayer (current_strokes s) (current_layer s)].

Definition get_layers (blocks : list Block) : list Layer :=
  tail (sealed_layers blocks).

(** *** The adapter as the design document words it

    A forward scan with the state [{current_label, pending_strokes}]: a
    group block with a new label seals the pending strokes under the
    previous label, the end of the stream seals the rest. *)

Fixpoint spec_sealed (current_label : string) (pending : list Stroke)
    (blocks : list Block) : list Layer :=
  match blocks with
  | [] => [mkLayer pending current_label]
  | TreeNodeBlock label :: rest =>
      if String.eqb current_label label
      then spec_sealed current_label pending rest
      else mkLayer pending current_label :: spec_sealed label [] rest
  | SceneLineItemBlock (Some value) :: rest =>
      spec_sealed current_label (pending ++ [stroke_of_line value]) rest
  | _ :: rest => spec_sealed current_label pending rest
  end.

(** The labels of the group blocks that change the current label. *)
Fixpoint transition_labels (current_label : string) (blocks : list Block)
    : list string :=
  match blocks with
  | [] => []
  | TreeNodeBlock label :: rest =>
      if String.eqb current_label label
      then transition_labels current_label rest
      else label :: transition_labels label rest
  | _ :: rest => transition_labels current_label rest
  end.

Definition transitions (blocks : list Block) : nat :=
  length (transition_labels "" blocks).

(** ** The page's collaborators *)

(** Modelled from the spec: the source object, read as opaque local I/O.
    A source is a finite map from paths to file contents: [exists] answers
    membership and [open] of an absent path raises. *)
Abbreviation Source := (gmap string (list Byte.byte)).

Definition source_exists (source : Source) (path : string) : bool :=
  bool_decide (is_Some (source !! path)).

Definition source_open (source : Source) (path : string)
    : Py.result (list Byte.byte) :=
  match source !! path with
  | Some f => Py.Ok f
  | None => Py.Raise Py.FileNotFoundError
  end.

(** The readers [document.py] calls, over a type [J] of decoded JSON
    values.  Modelled from the spec: the legacy stroke reader and the
    highlight source reader both return one stroke list per layer. *)
Class Readers (J : Type) : Type := {
  (** [lines.getVersion(f)] *)
  getVersion : list Byte.byte -> Py.result Z;
  (** [rmscene.read_blocks(f)] *)
  read_blocks : list Byte.byte -> list Block;
  (** the second component of [lines.readLines(f)] *)
  readLines : list Byte.byte -> Py.result (list (list Stroke));
  (** [json.load(f)] *)
  json_load : list Byte.byte -> Py.result J;
  (** the truth value of a decoded JSON value, as [if self.highlightdict] *)
  truthy : J -> bool;
  (** [d['layers'][i]['name']], [None] when the lookup raises *)
  layer_name_of : J -> nat -> option string;
  (** the second component of [lines.readHighlights(d)] *)
  readHighlights : J -> Py.result (list (list Stroke));
  (** [f.read().splitlines()] *)
  splitlines : list Byte.byte -> list string;
  (** [(TEMPLATE_PATH / name).exists()] *)
  template_exists : string -> bool
}.

(** ** Pages and their layers *)

(** A [DocumentPageLayer]; [G] is the type of annotation paths.  The two
    color tables are the same for every layer, see [colors] below. *)
Record DocumentPageLayer (G : Type) : Type := mkDocumentPageLayer {
  name : string;
  strokes : list Stroke;
  annot_paths : list (string * G)
}.
Arguments mkDocumentPageLayer {G} name strokes annot_paths.
Arguments name {G} _.
Arguments strokes {G} _.
Arguments annot_paths {G} _.

Record DocumentPage (J G : Type) : Type := mkDocumentPage {
  page_source : Source;
  page_num : Z;
  page_rmpath : string;
  page_version : Z;
  page_metadict : option J;
  page_highlightdict : option J;
  page_template : option string;
  page_layers : list (DocumentPageLayer G)
}.
Arguments mkDocumentPage {J G}.
Arguments page_source {J G} _.
Arguments page_num {J G} _.
Arguments page_rmpath {J G} _.
Arguments page_version {J G} _.
Arguments page_metadict {J G} _.
Arguments page_highlightdict {J G} _.
Arguments page_template {J G} _.
Arguments page_layers {J G} _.

(** [pagelayers] in [load_layers]: [Layer] tuples when [ver == 6], plain
    stroke lists otherwise. *)
Inductive PageLayers : Set :=
| FromBlocks (pagelayers : list Layer)
| FromLines (pagelayers : list (list Stroke)).

(** [operator.add] on a [Layer] tuple and a list: a tuple only
    concatenates with a tuple. *)
Definition add_layer_list (l : Layer) (h : list Stroke) : Py.result Layer :=
  Py.Raise Py.TypeError.

(** [operator.add] on two lists. *)
Definition add_list_list (l h : list Stroke) : Py.result (list Stroke) :=
  Py.Ok (l ++ h).

(** [list(map(add, pagelayers, pagelayershlght))] *)
Definition merge_highlights (pagelayers : PageLayers)
    (pagelayershlght : list (list Stroke)) : Py.result PageLayers :=
  match pagelayers with
  | FromBlocks ls =>
      ls' ← Py.map2 add_layer_list ls pagelayershlght; Py.Ok (FromBlocks ls')
  | FromLines ls =>
      ls' ← Py.map2 add_list_list ls pagelayershlght; Py.Ok (FromLines ls')
  end.

Section Loading.
Context {J G : Type} `{Readers J}.

(** The name of the legacy layer [i]: from the metadata, else
    ['Layer ' + str(i+1)]. *)
Definition legacy_layer_name (metadict : option J) (i : nat) : string :=
  match metadict ≫= (fun d => layer_name_of d i) with
  | Some n => n
  | None => "Layer " +:+ pretty (S i)
  end.

(** The loop [for i in range(0, len(pagelayers))]. *)
Definition layer_objects (metadict : option J) (pagelayers : PageLayers)
    : list (DocumentPageLayer G) :=
  match pagelayers with
  | FromBlocks ls =>
      map (fun l => mkDocumentPageLayer (layer_name l) (layer_strokes l) []) ls
  | FromLines ls =>
      imap (fun i layerstrokes =>
              mkDocumentPageLayer (legacy_layer_name metadict i) layerstrokes [])
           ls
  end.

Definition set_layers (page : DocumentPage J G)
    (ls : list (DocumentPageLayer G)) : DocumentPage J G :=
  mkDocumentPage (page_source page) (page_num page) (page_rmpath page)
    (page_version page) (page_metadict page) (page_highlightdict page)
    (page_template page) ls.

(** The primary layers, read from the open stroke file. *)
Definition read_pagelayers (ver : Z) (f : list Byte.byte)
    : Py.result PageLayers :=
  if (ver =? 6)%Z then Py.Ok (FromBlocks (get_layers (read_blocks f)))
  else ls ← readLines f; Py.Ok (FromLines ls).

(** The highlight merge of [load_layers]. *)
Definition load_highlights (highlightdict : option J)
    (pagelayers : PageLayers) : Py.result PageLayers :=
  match highlightdict with
  | Some d =>
      if truthy d
      then pagelayershlght ← readHighlights d;
           merge_highlights pagelayers pagelayershlght
      else Py.Ok pagelayers
  | None => Py.Ok pagelayers
  end.

Definition load_layers (page : DocumentPage J G)
    : Py.result (DocumentPage J G) :=
  if negb (source_exists (page_source page) (page_rmpath page))
  then Py.Ok page
  else
    f ← source_open (page_source page) (page_rmpath page);
    pagelayers ← read_pagelayers (page_version page) f;
    pagelayers ← load_highlights (page_highlightdict page) pagelayers;
    Py.Ok (set_layers page
             (page_layers page
              ++ layer_objects (page_metadict page) pagelayers)).

(** The values [template_name] takes in [__init__]: the parameter's
    default [None], a string, or the one-element list of the
    [IndexError] handler. *)
Inductive TemplateName : Set :=
| NameNone
| NameStr (s : string)
| NameList (n : Z).

(** [f'{template_name}.svg'] *)
Definition svg_name (t : TemplateName) : string :=
  match t with
  | NameNone => "None.svg"
  | NameStr s => s +:+ ".svg"
  | NameList n => "[" +:+ pretty n +:+ "].svg"
  end.

(** [template_name != 'Blank' and template_path.exists()] *)
Definition resolve_template (t : TemplateName) : option string :=
  let not_blank := match t with
                   | NameStr s => negb (String.eqb s "Blank")
                   | _ => true
                   end in
  if not_blank && template_exists (svg_name t) then Some (svg_name t)
  else None.

(** Reads an optional JSON file. *)
Definition load_json (source : Source) (path : string)
    : Py.result (option J) :=
  if source_exists source path
  then f ← source_open source path; d ← json_load f; Py.Ok (Some d)
  else Py.Ok None.

(** The template of a page, [__init__] lines 68 to 95. *)
Definition load_template (source : Source) (ver num : Z)
    (template_name : TemplateName) : Py.result (option string) :=
  if (ver =? 6)%Z then Py.Ok (resolve_template template_name)
  else
    template_names ←
      (if source_exists source "{ID}.pagedata"
       then f ← source_open source "{ID}.pagedata"; Py.Ok (splitlines f)
       else Py.Ok []);
    match template_names with
    | [] => Py.Ok None
    | _ =>
        let template_name :=
          match Py.index template_names num with
          | Py.Ok s => NameStr s
          | Py.Raise _ =>
              NameList (Z.min num (Z.of_nat (length template_names) - 1))
          end in
        Py.Ok (resolve_template template_name)
    end.

(** [DocumentPage.__init__] *)
Definition DocumentPage_init (source : Source) (pid : string) (pagenum : Z)
    (template_name : TemplateName) : Py.result (DocumentPage J G) :=
  let pidhighlights := pid in
  let rmpath := "{ID}/" +:+ pid +:+ ".rm" in
  let pid := if source_exists source rmpath then pid else pretty pagenum in
  let rmpath := "{ID}/" +:+ pid +:+ ".rm" in
  f ← source_open source rmpath;
  version ← getVersion f;
  metadict ← load_json source ("{ID}/" +:+ pid +:+ "-metadata.json");
  highlightdict ←
    load_json source ("{ID}.highlights/" +:+ pidhighlights +:+ ".json");
  template ← load_template source version pagenum template_name;
  load_layers
    (mkDocumentPage source pagenum rmpath version metadict highlightdict
       template []).

End Loading.

(** ** Annotation clustering *)

(** [QRectF], the result of [boundingRect()]. *)
Record QRectF : Set := mkQRectF {
  rect_x : float;
  rect_y : float;
  rect_width : float;
  rect_height : float
}.

(** The path operations [get_grouped_annotations] calls on an annotation
    path: [a.intersects(b)], [a.united(b)] and [a.boundingRect()]. *)
Class Geometry (G : Type) : Type := {
  intersects : G -> G -> bool;
  united : G -> G -> G;
  boundingRect : G -> QRectF
}.

(** An exported annotation, [(AnnotType, minX, minY, maxX, maxY)]. *)
Record Annot : Set := mkAnnot {
  annot_type : string;
  minX : float;
  minY : float;
  maxX : float;
  maxY : float
}.

(** Two boxes overlap when they share more than a border. *)
Definition boxes_overlap (a b : Annot) : bool :=
  (minX a <? maxX b)%float && (minX b <? maxX a)%float
  && (minY a <? maxY b)%float && (minY b <? maxY a)%float.

Section Clustering.
Context {G : Type} `{Geometry G}.

(** The inner loop [for i, g in enumerate(newset)]: the first group of
    the same type that [path] intersects is replaced by its union with
    [path]; [None] when the loop ends without a fit. *)
Fixpoint fit (annotype : string) (path : G) (newset : list (string * G))
    : option (list (string * G)) :=
  match newset with
  | [] => None
  | g :: rest =>
      if negb (String.eqb (fst g) annotype)
      then cons g <$> fit annotype path rest
      else if intersects path (snd g)
      then Some ((annotype, united (snd g) path) :: rest)
      else cons g <$> fit annotype path rest
  end.

(** One iteration of [for p in pathset]. *)
Definition place (newset : list (string * G)) (p : string * G)
    : list (string * G) :=
  match fit (fst p) (snd p) newset with
  | Some newset' => newset'
  | None => newset ++ [p]
  end.

(** One call's pass over [pathset], from [newset = []]. *)
Definition pass (pathset : list (string * G)) : list (string * G) :=
  fold_left place pathset [].

Lemma fit_length annotype path newset newset' :
  fit annotype path newset = Some newset' -> length newset' = length newset.
Proof.
  revert newset'. induction newset as [|g rest IH]; intros newset' Hfit.
  - discriminate.
  - cbn in Hfit.
    destruct (negb (String.eqb (fst g) annotype)).
    + destruct (fit annotype path rest) as [r|]; [|discriminate].
      injection Hfit as <-. cbn. f_equal. now apply IH.
    + destruct (intersects path (snd g)).
      * now injection Hfit as <-.
      * destruct (fit annotype path rest) as [r|]; [|discriminate].
        injection Hfit as <-. cbn. f_equal. now apply IH.
Qed.

Lemma place_length newset p :
  length (place newset p) <= S (length newset).
Proof.
  unfold place. destruct (fit _ _ _) as [r|] eqn:E.
  - rewrite (fit_length _ _ _ _ E). lia.
  - rewrite length_app. cbn. lia.
Qed.

Lemma fold_place_length pathset newset :
  length (fold_left place pathset newset) <= length newset + length pathset.
Proof.
  revert newset. induction pathset as [|p rest IH]; intros newset; cbn.
  - lia.
  - specialize (IH (place newset p)). pose proof (place_length newset p). lia.
Qed.

Lemma pass_length pathset : length (pass pathset) <= length pathset.
Proof. apply (fold_place_length pathset []). Qed.

(** Keeps the equation of a tested value for the recursive call. *)
Definition inspect {A : Type} (a : A) : {b : A | a = b} := exist _ a eq_refl.

(** [grouping_func]: pass again while the pass made the list shorter. *)
Equations? grouping_func (pathset : list (string * G)) : list (string * G)
  by wf (length pathset) lt :=
  grouping_func pathset with inspect (length (pass pathset) =? length pathset) := {
    | exist _ true _ => pass pathset
    | exist _ false Hne => grouping_func (pass pathset) }.
Proof.
  apply Nat.eqb_neq in Hne. pose proof (pass_length pathset). lia.
Qed.

(** The number of times [grouping_func] is entered. *)
Equations? grouping_calls (pathset : list (string * G)) : nat
  by wf (length pathset) lt :=
  grouping_calls pathset with inspect (length (pass pathset) =? length pathset) := {
    | exist _ true _ => 1
    | exist _ false Hne => S (grouping_calls (pass pathset)) }.
Proof.
  apply Nat.eqb_neq in Hne. pose proof (pass_length pathset). lia.
Qed.

(** No later shape intersects an earlier one of its type: the test
    [path.intersects(group)] fails for every pair the pass compares. *)
Definition separated (l : list (string * G)) : Prop :=
  forall i j gi gj,
    i < j -> l !! i = Some gi -> l !! j = Some gj ->
    fst gi = fst gj -> intersects (snd gj) (snd gi) = false.

(** No two distinct shapes of one type intersect, in either order. *)
Definition pairwise_disjoint (l : list (string * G)) : Prop :=
  forall i j gi gj,
    i <> j -> l !! i = Some gi -> l !! j = Some gj ->
    fst gi = fst gj -> intersects (snd gi) (snd gj) = false.

(** Every shape of [l] fails to fit the groups placed before it, when
    the pass starts from [acc]. *)
Definition unfit (acc l : list (string * G)) : Prop :=
  forall k p, l !! k = Some p ->
    fit (fst p) (snd p) (acc ++ take k l) = None.

(** The bounding rectangle of a group as an annotation. *)
Definition annot_of (p : string * G) : Annot :=
  let rect := boundingRect (snd p) in
  mkAnnot (fst p) (rect_x rect) (rect_y rect)
          (rect_x rect + rect_width rect)%float
          (rect_y rect + rect_height rect)%float.

(** [DocumentPageLayer.get_grouped_annotations] *)
Definition get_grouped_annotations (layer : DocumentPageLayer G)
    : string * list Annot :=
  let grouped := grouping_func (annot_paths layer) in
  (name layer, map annot_of grouped).

(** [DocumentPage.get_grouped_annotations] *)
Definition page_grouped_annotations {J} (page : DocumentPage J G)
    : list (string * list Annot) :=
  map get_grouped_annotations (page_layers page).

End Clustering.

(** ** A concrete geometry: finite unions of axis-parallel rectangles

    A region is a list of rectangles and stands for their union.  Two
    regions intersect when some rectangle of one shares area with some
    rectangle of the other. *)

Definition fmin (a b : float) : float := if (a <? b)%float then a else b.
Definition fmax (a b : float) : float := if (a <? b)%float then b else a.

Definition rect_right (r : QRectF) : float := (rect_x r + rect_width r)%float.
Definition rect_bottom (r : QRectF) : float := (rect_y r + rect_height r)%float.

Definition rects_overlap (a b : QRectF) : bool :=
  (rect_x a <? rect_right b)%float && (rect_x b <? rect_right a)%float
  && (rect_y a <? rect_bottom b)%float && (rect_y b <? rect_bottom a)%float.

Definition region_intersects (a b : list QRectF) : bool :=
  existsb (fun r => existsb (rects_overlap r) b) a.

Definition region_bounds (a : list QRectF) : QRectF :=
  match a with
  | [] => mkQRectF 0 0 0 0
  | r :: rest =>
      let left := fold_left (fun m q => fmin m (rect_x q)) rest (rect_x r) in
      let top := fold_left (fun m q => fmin m (rect_y q)) rest (rect_y r) in
      let right := fold_left (fun m q => fmax m (rect_right q)) rest (rect_right r) in
      let bottom := fold_left (fun m q => fmax m (rect_bottom q)) rest (rect_bottom r) in
      mkQRectF left top (right - left)%float (bottom - top)%float
  end.

#[global] Instance region_geometry : Geometry (list QRectF) := {
  intersects := region_intersects;
  united := fun a b => a ++ b;
  boundingRect := region_bounds
}.

(** The unit square with its corner at [(x, y)]. *)
Definition unit_square (x y : float) : list QRectF := [mkQRectF x y 1 1].

(** An L-shaped region, 3 by 3, open towards its lower right corner. *)
Definition l_shape : list QRectF := [mkQRectF 0 0 3 1; mkQRectF 0 0 1 3].

(** A square that sits in the open corner of [l_shape]. *)
Definition corner_square : list QRectF := [mkQRectF 2 2 1 1].

(** ** Pen dispatch *)

(** The pen classes of [rmrl.pens] that [paint_strokes] tells apart. *)
Inductive PenClass : Set :=
| GenericPen
| HighlighterPen
| OtherPen (cls : string).

(** A color of the tables: three components, [None] in the unused
    entries of the highlight table. *)
Definition Color : Set := option float * option float * option float.

Definition rgb (r g b : float) : Color := (Some r, Some g, Some b).
Definition no_color : Color := (None, None, None).

(** [self.colors] *)
Definition colors : list Color :=
  [ rgb (56/255) (57/255) (56/255);
    rgb 0.5 0.5 0.5;
    rgb 1 1 1;
    rgb 1 1 0;
    rgb 0 1 0;
    rgb 1 0 1;
    rgb (52/255) (120/255) (247/255);
    rgb (228/255) (95/255) (89/255) ].

(** [self.highlight_colors] *)
Definition highlight_colors : list Color :=
  [ no_color;
    rgb (248/255) (241/255) (36/255);
    no_color;
    rgb (248/255) (241/255) (36/255);
    rgb (183/255) (248/255) (73/255);
    rgb (248/255) (79/255) (145/255) ].

(** A call [penclass(vector=, layer=, color=).paint_stroke(canvas, stroke)],
    as the canvas receives it. *)
Record PaintCall : Set := mkPaintCall {
  call_penclass : PenClass;
  call_vector : bool;
  call_layer : string;
  call_color : Color;
  call_stroke : Stroke
}.

(** What painting acts on: the records of the module's logger, as level
    and message, and the canvas as the calls made on it. *)
Record World : Set := mkWorld {
  log : list (string * string);
  canvas : list PaintCall
}.

Definition log_error (w : World) (msg : string) : World :=
  mkWorld (log w ++ [("ERROR", msg)]) (canvas w).

Definition draw (w : World) (c : PaintCall) : World :=
  mkWorld (log w) (canvas w ++ [c]).

Section Dispatch.
(** [pens.PEN_MAPPING] *)
Variable PEN_MAPPING : gmap Z PenClass.

(** The [if]/[elif]/[else] of [paint_strokes]: the pen class, and the
    binding of the local [pencolor] after it.  [pencolor] is assigned in
    the two known-pen branches only; [None] is the unbound local. *)
Definition resolve (pencolor : option Color) (w : World) (stroke : Stroke)
    : World * Py.result (PenClass * option Color) :=
  match PEN_MAPPING !! stroke_pen stroke with
  | None =>
      (log_error w ("Unknown pen code " +:+ pretty (stroke_pen stroke)),
       Py.Ok (GenericPen, pencolor))
  | Some HighlighterPen =>
      (w, c ← Py.index highlight_colors (stroke_color stroke);
          Py.Ok (HighlighterPen, Some c))
  | Some penclass =>
      (w, c ← Py.index colors (stroke_color stroke);
          Py.Ok (penclass, Some c))
  end.

(** The body of [for stroke in self.strokes]. *)
Definition paint_one (layer : string) (vector : bool)
    (pencolor : option Color) (w : World) (stroke : Stroke)
    : World * Py.result (option Color) :=
  match resolve pencolor w stroke with
  | (w, Py.Raise e) => (w, Py.Raise e)
  | (w, Py.Ok (penclass, None)) => (w, Py.Raise Py.UnboundLocalError)
  | (w, Py.Ok (penclass, Some c)) =>
      (draw w (mkPaintCall penclass vector layer c stroke), Py.Ok (Some c))
  end.

Fixpoint paint_loop (layer : string) (vector : bool)
    (pencolor : option Color) (w : World) (strokes : list Stroke)
    : World * option Py.exn :=
  match strokes with
  | [] => (w, None)
  | stroke :: rest =>
      match paint_one layer vector pencolor w stroke with
      | (w, Py.Ok pencolor) => paint_loop layer vector pencolor w rest
      | (w, Py.Raise e) => (w, Some e)
      end
  end.

(** [DocumentPageLayer.paint_strokes]: the world afterwards, and the
    exception if one was raised. *)
Definition paint_strokes {G} (layer : DocumentPageLayer G) (w : World)
    (vector : bool) : World * option Py.exn :=
  paint_loop (name layer) vector None w (strokes layer).

(** [DocumentPageLayer.render_to_painter] *)
Definition render_to_painter {G} (layer : DocumentPageLayer G) (w : World)
    (vector : bool) : World * option Py.exn :=
  if vector then paint_strokes layer w vector
  else (w, Some Py.AssertionError).

End Dispatch.

(** ** Sample inputs *)

(** A pen table with a fine-liner, a highlighter and an eraser. *)
Definition sample_mapping : gmap Z PenClass :=
  <[4%Z := OtherPen "FinelinerPen"]>
    (<[5%Z := HighlighterPen]> (<[6%Z := OtherPen "EraserPen"]> ∅)).

Definition sample_stroke (pen color : Z) : Stroke :=
  mkStroke pen color None 2 None [mkSegment 10 20 0 0 1 0.5].

Definition sample_layer (ss : list Stroke) : DocumentPageLayer (list QRectF) :=
  mkDocumentPageLayer "Layer 1" ss [].

Definition empty_world : World := mkWorld [] [].

(** A toy encoding of the files, for examples.  A stroke file is a version
    byte followed by one byte per layer, the number of its strokes; a JSON
    file is one byte per highlight layer, the number of its strokes, and
    decodes to these layers. *)
Definition sample_line : Line := mkLine 0 4 [mkPoint 0 0 0 0 4 0] 2.

Definition sample_version (f : list Byte.byte) : Z :=
  match f with
  | [] => 0
  | b :: _ => Z.of_nat (Byte.to_nat b)
  end.

Definition sample_blocks (f : list Byte.byte) : list Block :=
  mjoin (imap (fun i b =>
                 TreeNodeBlock ("Layer " +:+ pretty (S i))
                 :: replicate (Byte.to_nat b) (SceneLineItemBlock (Some sample_line)))
              (tail f)).

Definition sample_lines (f : list Byte.byte) : list (list Stroke) :=
  map (fun b => replicate (Byte.to_nat b) (sample_stroke 4 0)) (tail f).

Definition sample_json (f : list Byte.byte) : list (list Stroke) :=
  map (fun b => replicate (Byte.to_nat b) (sample_stroke 5 1)) f.

Definition sample_readers : Readers (list (list Stroke)) := {|
  getVersion := fun f => Py.Ok (sample_version f);
  read_blocks := sample_blocks;
  readLines := fun f => Py.Ok (sample_lines f);
  json_load := fun f => Py.Ok (sample_json f);
  truthy := fun d => match d with [] => false | _ => true end;
  layer_name_of := fun _ _ => None;
  readHighlights := fun d => Py.Ok d;
  splitlines := fun _ => [];
  template_exists := fun _ => false
|}.

(** A legacy page [p1] with three layers of 1, 2 and 3 strokes and a
    highlight file of [hl] layers with one stroke each. *)
Definition legacy_source (hl : nat) : Source :=
  <["{ID}/p1.rm" := [Byte.x05; Byte.x01; Byte.x02; Byte.x03]]>
    (<["{ID}.highlights/p1.json" := replicate hl Byte.x01]> ∅).

(** A version-6 page [p1] with one layer of two strokes and a highlight
    file with one layer of one stroke. *)
Definition v6_source : Source :=
  <["{ID}/p1.rm" := [Byte.x06; Byte.x02]]>
    (<["{ID}.highlights/p1.json" := [Byte.x01]]> ∅).

(** A source with a highlight file for [p1] and no stroke file. *)
Definition no_rm_source : Source :=
  <["{ID}.highlights/p1.json" := [Byte.x01]]> ∅.

(** The layers of a constructed page as names and stroke counts. *)
Definition layer_summary {J G} (r : Py.result (DocumentPage J G))
    : Py.result (list (string * nat)) :=
  page ← r;
  Py.Ok (map (fun l => (name l, length (strokes l))) (page_layers page)).

(** The page [p1] of [legacy_source hl], as [__init__] leaves it before
    [load_layers]. *)
Definition legacy_page (hl : nat)
    : DocumentPage (list (list Stroke)) (list QRectF) :=
  mkDocumentPage (legacy_source hl) 0 "{ID}/p1.rm" 5 None
    (Some (sample_json (replicate hl Byte.x01))) None [].

(** The page [p1] of [v6_source], before [load_layers]. *)
Definition v6_page : DocumentPage (list (list Stroke)) (list QRectF) :=
  mkDocumentPage v6_source 0 "{ID}/p1.rm" 6 None
    (Some (sample_json [Byte.x01])) None [].

(** ** Rendering a page *)

(** The calls [DocumentPage.render_to_painter] makes on the canvas, and
    the paint calls of the pens. *)
Inductive CanvasOp : Set :=
| DrawBackground (template : string) (sx sy : float)
| SaveState
| SetFillColorRGB (r g b : float)
| SetFillAlpha (a : float)
| Rect (x y w h : float) (fill stroke : bool)
| RestoreState
| Translate (dx dy : float)
| Scale (sx sy : float)
| Paint (c : PaintCall)
| ShowPage.

(** The logger's records and the page canvas as the calls made on it. *)
Record PageWorld : Set := mkPageWorld {
  page_log : list (string * string);
  page_canvas : list CanvasOp
}.

Definition emit (pw : PageWorld) (ops : list CanvasOp) : PageWorld :=
  mkPageWorld (page_log pw) (page_canvas pw ++ ops).

(** The constants of [rmrl.constants] that rendering uses, and the width
    of the drawing [svg2rlg] loads from a template path; [svg2rlg] is
    taken to load every path it is given. *)
Class RenderEnv : Type := {
  PDFWIDTH : float;
  PDFHEIGHT : float;
  PTPERPX : float;
  background_width : string -> float
}.

Section PageRender.
Context `{RenderEnv}.
Variable PEN_MAPPING : gmap Z PenClass.

(** The template phase: [if self.template: if template_alpha > 0: ...].
    A path is true when it is not the empty string. *)
Definition template_ops (template : option string) (template_alpha : float)
    : list CanvasOp :=
  match template with
  | Some t =>
      if negb (String.eqb t "") && (0 <? template_alpha)%float
      then
        let s := (PDFWIDTH / background_width t)%float in
        DrawBackground t s s
        :: (if (template_alpha <? 1)%float
            then [ SaveState; SetFillColorRGB 1 1 1;
                   SetFillAlpha (1 - template_alpha)%float;
                   Rect 0 0 PDFWIDTH PDFHEIGHT true false; RestoreState ]
            else [])
      else []
  | None => []
  end.

(** One layer on the page canvas: [layer.render_to_painter(canvas,
    vector)].  The layer only appends paint calls, so it is run on an
    empty canvas and its calls are appended to the page's. *)
Definition render_layer {G} (vector : bool) (pw : PageWorld)
    (layer : DocumentPageLayer G) : PageWorld * option Py.exn :=
  let '(w, r) := render_to_painter PEN_MAPPING layer
                   (mkWorld (page_log pw) []) vector in
  (mkPageWorld (log w) (page_canvas pw ++ map Paint (canvas w)), r).

(** The loop [for layer in self.layers]. *)
Fixpoint render_layers {G} (vector : bool) (pw : PageWorld)
    (ls : list (DocumentPageLayer G)) : PageWorld * option Py.exn :=
  match ls with
  | [] => (pw, None)
  | layer :: rest =>
      match render_layer vector pw layer with
      | (pw, None) => render_layers vector pw rest
      | (pw, Some e) => (pw, Some e)
      end
  end.

(** [DocumentPage.render_to_painter] *)
Definition page_render_to_painter {J G} (page : DocumentPage J G)
    (pw : PageWorld) (vector : bool) (template_alpha : float)
    : PageWorld * option Py.exn :=
  let pw := emit pw (template_ops (page_template page) template_alpha) in
  let pw := emit pw [Translate 0 PDFHEIGHT; Scale PTPERPX (- PTPERPX)%float] in
  match render_layers vector pw (page_layers page) with
  | (pw, None) => (emit pw [ShowPage], None)
  | (pw, Some e) => (pw, Some e)
  end.

End PageRender.

(** ** Vocabulary of the statements *)

(** The stroke of a line item with a payload. *)
Definition block_stroke (b : Block) : option Stroke :=
  match b with
  | SceneLineItemBlock (Some value) => Some (stroke_of_line value)
  | _ => None
  end.

(** The strokes of a block stream, in stream order. *)
Definition line_strokes (blocks : list Block) : list Stroke :=
  omap block_stroke blocks.

(** The class of a block that [get_layers] does not convert. *)
Definition block_other (b : Block) : option string :=
  match b with
  | OtherBlock cls => Some cls
  | _ => None
  end.

(** Line items with a payload and group blocks. *)
Definition converted (b : Block) : bool :=
  match b with
  | SceneLineItemBlock (Some _) | TreeNodeBlock _ => true
  | _ => false
  end.

(** No highlight merge takes place: the highlight file is absent or its
    decoded value is false. *)
Definition no_highlights {J} `{Readers J} (highlightdict : option J) : bool :=
  match highlightdict with
  | Some d => negb (truthy d)
  | None => true
  end.

(** The stroke file path the constructor settles on. *)
Definition chosen_rmpath (source : Source) (pid : string) (pagenum : Z)
    : string :=
  "{ID}/"
  +:+ (if source_exists source ("{ID}/" +:+ pid +:+ ".rm")
       then pid else pretty pagenum)
  +:+ ".rm".

(** The shapes of one annotation type. *)
Definition of_type {G} (annotype : string) (l : list (string * G))
    : list (string * G) :=
  filter (fun p => fst p = annotype) l.

(** A stroke whose pen is in the table and whose color code is a
    position of the table its pen class reads. *)
Definition paintable (PEN_MAPPING : gmap Z PenClass) (stroke : Stroke) : bool :=
  match PEN_MAPPING !! stroke_pen stroke with
  | Some HighlighterPen =>
      ((0 <=? stroke_color stroke) && (stroke_color stroke <? 6))%Z
  | Some _ =>
      ((0 <=? stroke_color stroke) && (stroke_color stroke <? 8))%Z
  | None => false
  end.

Definition unknown_pen (PEN_MAPPING : gmap Z PenClass) (stroke : Stroke) : bool :=
  match PEN_MAPPING !! stroke_pen stroke with
  | Some _ => false
  | None => true
  end.

(** The error record of an unknown pen code. *)
Definition unknown_record (stroke : Stroke) : string * string :=
  ("ERROR", "Unknown pen code " +:+ pretty (stroke_pen stroke)).

(** Rendering constants for examples: an A4-like page of 445 by 594
    points, and drawings 1404 wide. *)
Definition sample_env : RenderEnv := {|
  PDFWIDTH := 445%float;
  PDFHEIGHT := 594%float;
  PTPERPX := 0.25%float;
  background_width := fun _ => 1404%float
|}.

Definition empty_page_world : PageWorld := mkPageWorld [] [].

(** Readers as [sample_readers], with a page-data file of one byte per
    line ([x01] for the line [Lined], any other for [Blank]) and every
    template file present. *)
Definition pagedata_readers : Readers (list (list Stroke)) := {|
  getVersion := fun f => Py.Ok (sample_version f);
  read_blocks := sample_blocks;
  readLines := fun f => Py.Ok (sample_lines f);
  json_load := fun f => Py.Ok (sample_json f);
  truthy := fun d => match d with [] => false | _ => true end;
  layer_name_of := fun _ _ => None;
  readHighlights := fun d => Py.Ok d;
  splitlines :=
    map (fun b => match b with Byte.x01 => "Lined" | _ => "Blank" end);
  template_exists := fun _ => true
|}.

(** A legacy page [p1] with two layers, no highlight file, and a
    page-data file of two lines, [Lined] and [Blank]. *)
Definition pagedata_source : Source :=
  <["{ID}/p1.rm" := [Byte.x05; Byte.x01; Byte.x02]]>
    (<["{ID}.pagedata" := [Byte.x01; Byte.x00]]> ∅).

(** Readers as [sample_readers], where a JSON file decodes to a dict that
    holds its layers under a key: the value is true even without layers. *)
Definition keyed_readers : Readers (list (list Stroke)) := {|
  getVersion := fun f => Py.Ok (sample_version f);
  read_blocks := sample_blocks;
  readLines := fun f => Py.Ok (sample_lines f);
  json_load := fun f => Py.Ok (sample_json f);
  truthy := fun _ => true;
  layer_name_of := fun _ _ => None;
  readHighlights := fun d => Py.Ok d;
  splitlines := fun _ => [];
  template_exists := fun _ => false
|}.

(* ===================================================================== *)
(** * Part II: theorems *)
(* ===================================================================== *)

(** ** The version-6 adapter *)

Section AdapterFacts.

(** The scan of the source and the scan of the design document agree
    from every intermediate state. *)
Lemma scan_spec_sealed blocks : forall s,
  let s' := fold_left scan_block blocks s in
  layers s' ++ [mkLayer (current_strokes s') (current_layer s')]
  = layers s ++ spec_sealed (current_layer s) (current_strokes s) blocks.
Proof.
  induction blocks as [|b rest IH]; intros s; cbn.
  - reflexivity.
  - destruct b as [[value|]|label|cls]; cbn.
    + apply (IH (mkScan _ _ _ _)).
    + apply IH.
    + destruct (String.eqb (current_layer s) label) eqn:E.
      * apply IH.
      * cbn zeta in IH. rewrite IH. cbn. now rewrite <- app_assoc.
    + apply (IH (mkScan _ _ _ _)).
Qed.

Lemma sealed_layers_spec blocks :
  sealed_layers blocks = spec_sealed "" [] blocks.
Proof. apply (scan_spec_sealed blocks scan_init). Qed.

(** The sealed layers are named by the start label and then by each
    label that was switched to. *)
Lemma spec_sealed_names blocks : forall cur pending,
  map layer_name (spec_sealed cur pending blocks)
  = cur :: transition_labels cur blocks.
Proof.
  induction blocks as [|b rest IH]; intros cur pending; cbn.
  - reflexivity.
  - destruct b as [[value|]|label|cls]; cbn; try apply IH.
    destruct (String.eqb cur label); cbn; [apply IH|].
    now rewrite IH.
Qed.

End AdapterFacts.

(** C1: for every version-6 block stream, [get_layers] returns the layers
    sealed by the forward scan (one at each group block whose label differs
    from the current one, named with the previous label, and one at the end
    of the stream) without the first of them; there are exactly as many as
    label transitions, and they carry the labels switched to, in order. *)
Theorem get_layers_transitions (blocks : list Block) :
  get_layers blocks = tail (spec_sealed "" [] blocks)
  /\ length (get_layers blocks) = transitions blocks
  /\ map layer_name (get_layers blocks) = transition_labels "" blocks
  /\ exists pre, sealed_layers blocks = mkLayer pre "" :: get_layers blocks.
Proof.
  unfold get_layers, transitions. rewrite sealed_layers_spec.
  pose proof (spec_sealed_names blocks "" []) as Hn.
  destruct (spec_sealed "" [] blocks) as [|l ls]; [discriminate|].
  cbn in Hn. injection Hn as Hl Hls.
  repeat split.
  - cbn. rewrite <- Hls. now rewrite length_map.
  - exact Hls.
  - destruct l as [pre nm]. cbn in Hl. subst nm. now exists pre.
Qed.

Example get_layers_two_layers :
  let s1 := mkLine 0 4 [mkPoint 0 0 0 0 4 0] 2 in
  get_layers [ SceneLineItemBlock (Some s1); TreeNodeBlock "A";
               SceneLineItemBlock None; TreeNodeBlock "A";
               OtherBlock "AuthorIdsBlock"; SceneLineItemBlock (Some s1);
               TreeNodeBlock "B" ]
  = [ mkLayer [stroke_of_line s1] "A"; mkLayer [] "B" ].
Proof. reflexivity. Qed.

(** ** The coordinate transform *)

Section FloatFacts.

Lemma SFmul_comm prec emax a b :
  SpecFloat.SFmul prec emax a b = SpecFloat.SFmul prec emax b a.
Proof.
  destruct a as [sa|sa| |sa ma ea], b as [sb|sb| |sb mb eb]; cbn;
    try reflexivity; try (now rewrite xorb_comm).
  now rewrite xorb_comm, Pos.mul_comm, Z.add_comm.
Qed.

(** Multiplication of binary64 numbers is commutative. *)
Lemma float_mul_comm (a b : float) : (a * b = b * a)%float.
Proof. apply Prim2SF_inj. rewrite !mul_spec. apply SFmul_comm. Qed.

End FloatFacts.

(** C2: [to_segment] maps every device point to
    [x = 0.7*x_dev + 1404/2 - 40], [y = 0.7*y_dev], [width = width_dev/4]
    in binary64 arithmetic and keeps pressure, speed and direction; the
    point [(0, 0)] of width 4 goes to [(1404/2 - 40, 0)] of width 1, and
    [x_dev = 1404] goes to [0.7*1404 + 1404/2 - 40]. *)
Theorem to_segment_transform :
  (forall p : Point,
     to_segment p
     = mkSegment (0.7 * point_x p + 1404 / 2 - 40)%float
                 (0.7 * point_y p)%float
                 (point_speed p) (point_direction p)
                 (point_width p / 4)%float
                 (point_pressure p))
  /\ (forall s d pr : float,
        to_segment (mkPoint 0 0 s d 4 pr)
        = mkSegment (1404 / 2 - 40)%float 0 s d 1 pr)
  /\ (forall y s d w pr : float,
        segment_x (to_segment (mkPoint 1404 y s d w pr))
        = (0.7 * 1404 + 1404 / 2 - 40)%float).
Proof.
  split; [|split].
  - intros p. unfold to_segment.
    now rewrite (float_mul_comm (point_x p)), (float_mul_comm (point_y p)).
  - intros s d pr. reflexivity.
  - intros y0 s d w pr. reflexivity.
Qed.

(** ** Annotation clustering *)

Section ClusteringFacts.
Context {G : Type} `{Geometry G}.

Lemma fit_None annotype path newset :
  fit annotype path newset = None
  <-> (forall g, g ∈ newset -> fst g = annotype ->
         intersects path (snd g) = false).
Proof.
  induction newset as [|g rest IH]; cbn.
  - split; [intros _ g Hg; inversion Hg | reflexivity].
  - destruct (String.eqb (fst g) annotype) eqn:E; cbn.
    + apply String.eqb_eq in E.
      destruct (intersects path (snd g)) eqn:I.
      * split; [discriminate|]. intros Hall.
        rewrite (Hall g) in I; [discriminate | left | exact E].
      * destruct (fit annotype path rest) eqn:F; cbn.
        -- split; [discriminate|]. intros Hall.
           assert (Some l = None) as Habs; [|discriminate Habs].
           apply IH. intros g' Hg'. apply Hall. now right.
        -- split; [|reflexivity]. intros _ g' Hg' Hty.
           apply elem_of_cons in Hg' as [->|Hg']; [exact I|].
           now apply IH.
    + apply String.eqb_neq in E.
      destruct (fit annotype path rest) eqn:F; cbn.
      * split; [discriminate|]. intros Hall.
        assert (Some l = None) as Habs; [|discriminate Habs].
        apply IH. intros g' Hg'. apply Hall. now right.
      * split; [|reflexivity]. intros _ g' Hg' Hty.
        apply elem_of_cons in Hg' as [->|Hg']; [contradiction|].
        now apply IH.
Qed.

Lemma place_unfit newset p :
  fit (fst p) (snd p) newset = None -> place newset p = newset ++ [p].
Proof. unfold place. now intros ->. Qed.

Lemma place_full newset p :
  length (place newset p) = S (length newset) ->
  fit (fst p) (snd p) newset = None.
Proof.
  unfold place. destruct (fit _ _ _) as [r|] eqn:E; [|reflexivity].
  rewrite (fit_length _ _ _ _ E). lia.
Qed.

Lemma unfit_cons acc p rest :
  unfit acc (p :: rest)
  <-> fit (fst p) (snd p) acc = None /\ unfit (acc ++ [p]) rest.
Proof.
  unfold unfit. split.
  - intros Hu. split.
    + specialize (Hu 0 p eq_refl). cbn in Hu. now rewrite app_nil_r in Hu.
    + intros k q Hq. specialize (Hu (S k) q Hq). cbn in Hu.
      now rewrite <- app_assoc.
  - intros [H0 Hu] [|k] q Hq; cbn in *.
    + injection Hq as <-. now rewrite app_nil_r.
    + specialize (Hu k q Hq). now rewrite <- app_assoc in Hu.
Qed.

(** A pass over shapes that fit nowhere appends them all. *)
Lemma fold_place_unfit l : forall acc,
  unfit acc l -> fold_left place l acc = acc ++ l.
Proof.
  induction l as [|p rest IH]; intros acc Hu; cbn.
  - now rewrite app_nil_r.
  - apply unfit_cons in Hu as [H0 Hu].
    rewrite (place_unfit _ _ H0), (IH _ Hu). now rewrite <- app_assoc.
Qed.

(** A pass that loses no element merged nothing. *)
Lemma fold_place_full l : forall acc,
  length (fold_left place l acc) = length acc + length l -> unfit acc l.
Proof.
  induction l as [|p rest IH]; intros acc Hlen.
  - intros k q Hq. destruct k; discriminate.
  - cbn in Hlen.
    pose proof (fold_place_length rest (place acc p)) as Hle.
    pose proof (place_length acc p) as Hp.
    assert (length (place acc p) = S (length acc)) as Hfull by lia.
    apply place_full in Hfull as Hfit.
    apply unfit_cons. split; [exact Hfit|].
    apply IH. rewrite (place_unfit _ _ Hfit) in Hlen.
    rewrite Hlen, length_app. cbn. lia.
Qed.

Lemma unfit_separated l : unfit [] l <-> separated l.
Proof.
  unfold unfit, separated. cbn. split.
  - intros Hu i j gi gj Hij Hi Hj Hty.
    specialize (Hu j gj Hj).
    apply (proj1 (fit_None _ _ _) Hu gi); [|exact Hty].
    apply list_elem_of_lookup. exists i.
    rewrite lookup_take_lt; [exact Hi | exact Hij].
  - intros Hs k p Hk. apply fit_None. intros g Hg Hty.
    apply list_elem_of_lookup in Hg as [i Hi].
    assert (i < k) as Hik.
    { apply lookup_lt_Some in Hi. rewrite length_take in Hi. lia. }
    rewrite lookup_take_lt in Hi by exact Hik.
    exact (Hs i k g p Hik Hi Hk Hty).
Qed.

Lemma pass_separated l : separated l -> pass l = l.
Proof.
  intros Hs. apply unfit_separated in Hs.
  exact (fold_place_unfit l [] Hs).
Qed.

Lemma pass_same_length l :
  length (pass l) = length l -> separated l /\ pass l = l.
Proof.
  intros Hlen. assert (separated l) as Hs.
  { apply unfit_separated. now apply fold_place_full. }
  split; [exact Hs | now apply pass_separated].
Qed.

(** The recursion equation of [grouping_func], as the source reads. *)
Lemma grouping_func_eq l :
  grouping_func l
  = if length (pass l) =? length l then pass l else grouping_func (pass l).
Proof.
  rewrite grouping_func_equation_1.
  destruct (inspect (length (pass l) =? length l)) as [b e].
  destruct b; cbn; now rewrite e.
Qed.

Lemma grouping_calls_eq l :
  grouping_calls l
  = if length (pass l) =? length l then 1 else S (grouping_calls (pass l)).
Proof.
  rewrite grouping_calls_equation_1.
  destruct (inspect (length (pass l) =? length l)) as [b e].
  destruct b; cbn; now rewrite e.
Qed.

(** The groups [grouping_func] returns are separated. *)
Lemma grouping_func_separated l : separated (grouping_func l).
Proof.
  induction l as [l IH] using (induction_ltof1 _ (@length _)).
  rewrite grouping_func_eq.
  destruct (length (pass l) =? length l) eqn:E.
  - apply Nat.eqb_eq in E. destruct (pass_same_length l E) as [Hs ->].
    exact Hs.
  - apply Nat.eqb_neq in E. apply IH. unfold ltof.
    pose proof (pass_length l). lia.
Qed.

(** Separated input is returned as it is, by the first call. *)
Lemma grouping_func_fixed l :
  separated l -> grouping_func l = l /\ grouping_calls l = 1.
Proof.
  intros Hs. rewrite grouping_func_eq, grouping_calls_eq.
  rewrite (pass_separated l Hs), Nat.eqb_refl. now split.
Qed.

End ClusteringFacts.

(** C3 (amended): for every collection of annotation shapes on a layer,
    clustering stops, and among the groups it returns no group's path
    intersects the path of an earlier group of its type; when [intersects]
    is symmetric no two groups of one type intersect.  The exported boxes
    are the bounding rectangles of these groups.  An empty collection
    gives an empty list. *)
Theorem grouped_annotations_separated {G : Type} `{Geometry G}
    (layer : DocumentPageLayer G) :
  let grouped := grouping_func (annot_paths layer) in
  get_grouped_annotations layer = (name layer, map annot_of grouped)
  /\ separated grouped
  /\ ((forall a b : G, intersects a b = intersects b a) ->
      pairwise_disjoint grouped)
  /\ (annot_paths layer = [] ->
      get_grouped_annotations layer = (name layer, [])).
Proof.
  cbn zeta. pose proof (grouping_func_separated (annot_paths layer)) as Hs.
  repeat split.
  - exact Hs.
  - intros Hsym i j gi gj Hij Hi Hj Hty.
    destruct (Nat.lt_total i j) as [Hlt|[Heq|Hgt]].
    + rewrite Hsym. exact (Hs i j gi gj Hlt Hi Hj Hty).
    + contradiction.
    + exact (Hs j i gj gi Hgt Hj Hi (eq_sym Hty)).
  - intros Hnil. unfold get_grouped_annotations. rewrite Hnil.
    reflexivity.
Qed.

(** C3, as stated, fails: an L-shaped highlight and a square in its open
    corner do not intersect and stay two groups, yet the bounding box of
    the first contains the box of the second. *)
Lemma grouped_boxes_overlap :
  let layer := mkDocumentPageLayer "Layer 1" []
                 [("Highlight", l_shape); ("Highlight", corner_square)] in
  let a := mkAnnot "Highlight" 0 0 3 3 in
  let b := mkAnnot "Highlight" 2 2 3 3 in
  region_intersects l_shape corner_square = false
  /\ region_intersects corner_square l_shape = false
  /\ get_grouped_annotations layer = ("Layer 1", [a; b])
  /\ boxes_overlap a b = true.
Proof. repeat split; vm_compute; reflexivity. Qed.

(** Three unit squares at (0,0), (0.5,0.5) and (5,5): two groups. *)
Example grouping_three_squares :
  get_grouped_annotations
    (mkDocumentPageLayer "Layer 1" []
       [ ("Highlight", unit_square 0 0); ("Highlight", unit_square 0.5 0.5);
         ("Highlight", unit_square 5 5) ])
  = ("Layer 1", [ mkAnnot "Highlight" 0 0 1.5 1.5;
                  mkAnnot "Highlight" 5 5 6 6 ]).
Proof. vm_compute. reflexivity. Qed.

(** Shapes of different types never merge. *)
Example grouping_two_types :
  grouping_func [ ("Highlight", unit_square 0 0); ("Underline", unit_square 0 0) ]
  = [ ("Highlight", unit_square 0 0); ("Underline", unit_square 0 0) ].
Proof. vm_compute. reflexivity. Qed.

(** A merge that makes a second pass necessary: the third square joins
    the first only after the second has widened it. *)
Example grouping_second_pass :
  let l := [ ("Highlight", unit_square 0 0); ("Highlight", unit_square 1.5 0);
             ("Highlight", unit_square 0.75 0) ] in
  length (pass l) = 2 /\ length (grouping_func l) = 1 /\ grouping_calls l = 3.
Proof. vm_compute. repeat split. Qed.

(** C4: clustering is idempotent.  The output of [grouping_func] is
    separated, one pass over it changes nothing, and [grouping_func]
    returns it from its first call; the same holds for any input whose
    shapes of one type are pairwise disjoint. *)
Theorem grouping_func_idempotent {G : Type} `{Geometry G}
    (pathset : list (string * G)) :
  let grouped := grouping_func pathset in
  (pass grouped = grouped
   /\ grouping_func grouped = grouped
   /\ grouping_calls grouped = 1)
  /\ (pairwise_disjoint pathset ->
      pass pathset = pathset
      /\ grouping_func pathset = pathset
      /\ grouping_calls pathset = 1).
Proof.
  cbn zeta. split.
  - pose proof (grouping_func_separated pathset) as Hs.
    destruct (grouping_func_fixed _ Hs) as [Hf Hc].
    split; [now apply pass_separated | now split].
  - intros Hd. assert (separated pathset) as Hs.
    { intros i j gi gj Hij Hi Hj Hty.
      apply (Hd j i gj gi); [lia | exact Hj | exact Hi | now symmetry]. }
    destruct (grouping_func_fixed _ Hs) as [Hf Hc].
    split; [now apply pass_separated | now split].
Qed.

(** ** Loading *)

Example init_legacy_equal :
  layer_summary
    (DocumentPage_init (H := sample_readers) (G := list QRectF)
       (legacy_source 3) "p1" 0 NameNone)
  = Py.Ok [("Layer 1", 2); ("Layer 2", 3); ("Layer 3", 4)].
Proof. vm_compute. reflexivity. Qed.

Section LoadingFacts.
Context {J G : Type} `{Readers J}.

Lemma source_exists_Some (source : Source) path f :
  source !! path = Some f -> source_exists source path = true.
Proof. intros E. unfold source_exists. rewrite E. reflexivity. Qed.

Lemma source_exists_None (source : Source) path :
  source !! path = None -> source_exists source path = false.
Proof.
  intros E. unfold source_exists. rewrite E.
  apply bool_decide_eq_false_2. now intros [f Hf].
Qed.

(** Lists are added pairwise, up to the shorter argument. *)
Lemma map2_add_list_list (ps hs : list (list Stroke)) :
  Py.map2 add_list_list ps hs = Py.Ok (zip_with app ps hs).
Proof.
  revert hs. induction ps as [|p ps IH]; intros [|h hs]; cbn; try reflexivity.
  now rewrite IH.
Qed.

(** A [Layer] tuple and a list cannot be added: the first pair raises. *)
Lemma map2_add_layer_list (l : Layer) ls (h : list Stroke) hs :
  Py.map2 add_layer_list (l :: ls) (h :: hs) = Py.Raise Py.TypeError.
Proof. reflexivity. Qed.

(** The guard of [load_layers]: without the stroke file nothing is
    loaded. *)
Lemma load_layers_absent (page : DocumentPage J G) :
  page_source page !! page_rmpath page = None ->
  load_layers page = Py.Ok page.
Proof.
  intros E. unfold load_layers. now rewrite (source_exists_None _ _ E).
Qed.

Lemma load_layers_present (page : DocumentPage J G) f :
  page_source page !! page_rmpath page = Some f ->
  load_layers page
  = (pagelayers ← read_pagelayers (page_version page) f;
     pagelayers ← load_highlights (page_highlightdict page) pagelayers;
     Py.Ok (set_layers page
              (page_layers page
               ++ layer_objects (page_metadict page) pagelayers))).
Proof.
  intros E. unfold load_layers, source_open.
  rewrite (source_exists_Some _ _ _ E), E. reflexivity.
Qed.

(** Without a highlight source the primary layers are loaded as read,
    on both schema paths. *)
Lemma load_layers_no_highlights (page : DocumentPage J G) f pagelayers :
  page_source page !! page_rmpath page = Some f ->
  read_pagelayers (page_version page) f = Py.Ok pagelayers ->
  page_highlightdict page = None ->
  load_layers page
  = Py.Ok (set_layers page
             (page_layers page
              ++ layer_objects (page_metadict page) pagelayers)).
Proof.
  intros E R Hn. rewrite (load_layers_present _ _ E), R, Hn. reflexivity.
Qed.

Lemma imap_layer_strokes (nm : nat -> string) (ls : list (list Stroke)) :
  map strokes
      (imap (fun i layerstrokes =>
               @mkDocumentPageLayer G (nm i) layerstrokes []) ls)
  = ls.
Proof.
  revert nm. induction ls as [|l ls IH]; intros nm.
  - reflexivity.
  - rewrite imap_cons. cbn. f_equal. exact (IH (nm ∘ S)).
Qed.

(** The layer objects of the legacy path hold the stroke lists as
    given, one object per list. *)
Lemma layer_objects_lines_strokes metadict (ls : list (list Stroke)) :
  map strokes (layer_objects (G := G) metadict (FromLines ls)) = ls.
Proof. apply imap_layer_strokes. Qed.

Lemma layer_objects_blocks_strokes metadict (ls : list Layer) :
  map strokes (layer_objects (G := G) metadict (FromBlocks ls))
  = map layer_strokes ls.
Proof. cbn. rewrite map_map. reflexivity. Qed.

(** The legacy path with a highlight source: the stroke lists are
    concatenated pairwise, whatever the two lengths are. *)
Lemma load_layers_legacy_highlights (page : DocumentPage J G) f d primary hl :
  (page_version page =? 6)%Z = false ->
  page_source page !! page_rmpath page = Some f ->
  readLines f = Py.Ok primary ->
  page_highlightdict page = Some d ->
  truthy d = true ->
  readHighlights d = Py.Ok hl ->
  load_layers page
  = Py.Ok (set_layers page
             (page_layers page
              ++ layer_objects (page_metadict page)
                   (FromLines (zip_with app primary hl)))).
Proof.
  intros Hv E R Hd Ht Rh. rewrite (load_layers_present _ _ E).
  unfold read_pagelayers, load_highlights. rewrite Hv, R, Hd, Ht. cbn.
  rewrite Rh. cbn. rewrite map2_add_list_list. reflexivity.
Qed.

End LoadingFacts.

(** C5 (amended): with a highlight source on the legacy path the merge
    raises no error, whether or not the two layer lists have the same
    length: the page gets as many layers as the shorter list has, and
    layer [i] holds the primary strokes of layer [i] followed by its
    highlight strokes. *)
Theorem load_layers_legacy_truncates {J G : Type} `{Readers J}
    (page : DocumentPage J G) f d primary hl :
  (page_version page =? 6)%Z = false ->
  page_source page !! page_rmpath page = Some f ->
  readLines f = Py.Ok primary ->
  page_highlightdict page = Some d ->
  truthy d = true ->
  readHighlights d = Py.Ok hl ->
  exists page',
    load_layers page = Py.Ok page'
    /\ map strokes (page_layers page')
       = map strokes (page_layers page) ++ zip_with app primary hl
    /\ length (page_layers page')
       = length (page_layers page) + min (length primary) (length hl).
Proof.
  intros Hv E R Hd Ht Rh.
  eexists. split; [exact (load_layers_legacy_highlights page f d primary hl Hv E R Hd Ht Rh)|].
  cbn [set_layers page_layers]. split.
  - now rewrite map_app, layer_objects_lines_strokes.
  - rewrite length_app. f_equal.
    rewrite <- (length_map strokes), layer_objects_lines_strokes.
    apply length_zip_with.
Qed.

Lemma load_layers_legacy_truncates_witness :
  exists page',
    load_layers (H := sample_readers) (legacy_page 2) = Py.Ok page'
    /\ map strokes (page_layers page')
       = [] ++ zip_with app
                 (sample_lines [Byte.x05; Byte.x01; Byte.x02; Byte.x03])
                 (sample_json [Byte.x01; Byte.x01])
    /\ length (page_layers page') = 0 + min 3 2.
Proof.
  apply (load_layers_legacy_truncates (H := sample_readers) (legacy_page 2)
           [Byte.x05; Byte.x01; Byte.x02; Byte.x03]
           (sample_json [Byte.x01; Byte.x01])
           (sample_lines [Byte.x05; Byte.x01; Byte.x02; Byte.x03])
           (sample_json [Byte.x01; Byte.x01]));
    vm_compute; reflexivity.
Defined.

(** C5, as stated, fails: a legacy page with three primary layers and a
    highlight file of two layers is constructed without any error, with
    two layers. *)
Lemma mismatched_highlights_load :
  length (sample_lines [Byte.x05; Byte.x01; Byte.x02; Byte.x03]) = 3
  /\ length (sample_json [Byte.x01; Byte.x01]) = 2
  /\ layer_summary
       (DocumentPage_init (H := sample_readers) (G := list QRectF)
          (legacy_source 2) "p1" 0 NameNone)
     = Py.Ok [("Layer 1", 2); ("Layer 2", 3)].
Proof. repeat split; vm_compute; reflexivity. Qed.

(** On the legacy path, lists of equal length merge into a list of that
    length, layer by layer. *)
Lemma load_layers_legacy_equal {J G : Type} `{Readers J}
    (page : DocumentPage J G) f d primary hl :
  (page_version page =? 6)%Z = false ->
  page_source page !! page_rmpath page = Some f ->
  readLines f = Py.Ok primary ->
  page_highlightdict page = Some d ->
  truthy d = true ->
  readHighlights d = Py.Ok hl ->
  length hl = length primary ->
  exists page',
    load_layers page = Py.Ok page'
    /\ length (page_layers page')
       = length (page_layers page) + length primary
    /\ forall i p h, primary !! i = Some p -> hl !! i = Some h ->
         strokes <$> page_layers page' !! (length (page_layers page) + i)
         = Some (p ++ h).
Proof.
  intros Hv E R Hd Ht Rh Hlen.
  eexists. split; [exact (load_layers_legacy_highlights page f d primary hl Hv E R Hd Ht Rh)|].
  cbn [set_layers page_layers]. split.
  - rewrite length_app. f_equal.
    rewrite <- (length_map strokes), layer_objects_lines_strokes.
    rewrite length_zip_with. lia.
  - intros i p h Hp Hh. rewrite lookup_app_r by lia.
    replace (length (page_layers page) + i - length (page_layers page)) with i by lia.
    rewrite <- list_lookup_fmap.
    change (strokes <$> ?l) with (map strokes l).
    rewrite layer_objects_lines_strokes, lookup_zip_with, Hp. cbn.
    now rewrite Hh.
Qed.

(** C6 fails on the version-6 path: with a highlight source, one primary
    layer and one highlight layer are enough for [operator.add] to be
    called on a [Layer] tuple and a list, and loading raises. *)
Theorem load_layers_v6_highlights_raise {J G : Type} `{Readers J}
    (page : DocumentPage J G) f d l ls h hs :
  (page_version page =? 6)%Z = true ->
  page_source page !! page_rmpath page = Some f ->
  get_layers (read_blocks f) = l :: ls ->
  page_highlightdict page = Some d ->
  truthy d = true ->
  readHighlights d = Py.Ok (h :: hs) ->
  load_layers page = Py.Raise Py.TypeError.
Proof.
  intros Hv E Hl Hd Ht Rh. rewrite (load_layers_present _ _ E).
  unfold read_pagelayers, load_highlights. rewrite Hv, Hl, Hd, Ht. cbn.
  rewrite Rh. reflexivity.
Qed.

Lemma load_layers_v6_highlights_raise_witness :
  load_layers (H := sample_readers) v6_page = Py.Raise Py.TypeError.
Proof.
  apply (load_layers_v6_highlights_raise (H := sample_readers) v6_page
           [Byte.x06; Byte.x02] (sample_json [Byte.x01])
           (mkLayer (replicate 2 (stroke_of_line sample_line)) "Layer 1") []
           [sample_stroke 5 1] []);
    vm_compute; reflexivity.
Defined.

(** The same page through its constructor, and without the highlight
    file. *)
Example init_v6_highlights_raise :
  DocumentPage_init (H := sample_readers) (G := list QRectF)
    v6_source "p1" 0 NameNone
  = Py.Raise Py.TypeError
  /\ layer_summary
       (DocumentPage_init (H := sample_readers) (G := list QRectF)
          (delete "{ID}.highlights/p1.json" v6_source) "p1" 0 NameNone)
     = Py.Ok [("Layer 1", 2)].
Proof. split; vm_compute; reflexivity. Qed.

(** C9 fails in the constructor: when the stroke file is found neither
    under the page id nor under the page number, [__init__] opens it all
    the same to read the version, and raises before [load_layers] runs. *)
Theorem init_missing_stroke_file_raises {J G : Type} `{Readers J}
    (source : Source) pid pagenum template_name :
  source !! ("{ID}/" +:+ pid +:+ ".rm") = None ->
  source !! ("{ID}/" +:+ pretty pagenum +:+ ".rm") = None ->
  DocumentPage_init (G := G) source pid pagenum template_name
  = Py.Raise Py.FileNotFoundError.
Proof.
  intros E1 E2. unfold DocumentPage_init.
  rewrite (source_exists_None _ _ E1). unfold source_open. rewrite E2.
  reflexivity.
Qed.

Lemma init_missing_stroke_file_raises_witness :
  DocumentPage_init (H := sample_readers) (G := list QRectF)
    no_rm_source "p1" 0 NameNone
  = Py.Raise Py.FileNotFoundError.
Proof.
  apply (init_missing_stroke_file_raises (H := sample_readers)
           no_rm_source "p1" 0%Z NameNone);
    vm_compute; reflexivity.
Defined.

(** ** Pen dispatch *)

Section DispatchFacts.
Variable PEN_MAPPING : gmap Z PenClass.

Lemma index_raises {A} (l : list A) i e :
  Py.index l i = Py.Raise e -> e = Py.IndexError.
Proof.
  unfold Py.index. destruct (_ && _); [|congruence].
  destruct (l !! _); congruence.
Qed.

Lemma index_in_range {A} (l : list A) (i : Z) :
  (0 <= i < Z.of_nat (length l))%Z ->
  exists a, l !! Z.to_nat i = Some a /\ Py.index l i = Py.Ok a.
Proof.
  intros Hi. unfold Py.index.
  destruct (Z.ltb_spec i 0); [lia|].
  destruct (Z.leb_spec 0 i); [|lia].
  destruct (Z.ltb_spec i (Z.of_nat (length l))); [|lia]. cbn.
  destruct (lookup_lt_is_Some_2 l (Z.to_nat i)) as [a Ha]; [lia|].
  exists a. now rewrite Ha.
Qed.

Lemma index_beyond {A} (l : list A) (i : Z) :
  (Z.of_nat (length l) <= i)%Z -> Py.index l i = Py.Raise Py.IndexError.
Proof.
  intros Hi. unfold Py.index.
  destruct (Z.ltb_spec i 0); [lia|].
  destruct (Z.ltb_spec i (Z.of_nat (length l))); [lia|].
  now rewrite andb_false_r.
Qed.

(** The color table a known pen class reads. *)
Lemma resolve_known pencolor w stroke penclass :
  PEN_MAPPING !! stroke_pen stroke = Some penclass ->
  resolve PEN_MAPPING pencolor w stroke
  = (w, c ← Py.index (match penclass with
                      | HighlighterPen => highlight_colors
                      | _ => colors
                      end) (stroke_color stroke);
        Py.Ok (penclass, Some c)).
Proof. intros E. unfold resolve. rewrite E. now destruct penclass. Qed.

(** An unknown pen code after a stroke that bound [pencolor]: one error
    record, and the stroke is painted by [GenericPen] in the color of the
    earlier stroke. *)
Lemma paint_one_unknown_bound layer vector c w stroke :
  PEN_MAPPING !! stroke_pen stroke = None ->
  paint_one PEN_MAPPING layer vector (Some c) w stroke
  = (draw (log_error w ("Unknown pen code " +:+ pretty (stroke_pen stroke)))
          (mkPaintCall GenericPen vector layer c stroke),
     Py.Ok (Some c)).
Proof. intros E. unfold paint_one, resolve. now rewrite E. Qed.

Lemma paint_one_raises layer vector pencolor w stroke w' e :
  paint_one PEN_MAPPING layer vector pencolor w stroke = (w', Py.Raise e) ->
  e = Py.IndexError \/ e = Py.UnboundLocalError.
Proof.
  unfold paint_one, resolve.
  destruct (PEN_MAPPING !! stroke_pen stroke) as [penclass|].
  - assert (forall tbl,
      (let (w0, r) := (w, c ← Py.index tbl (stroke_color stroke);
                          Py.Ok (penclass, Some c)) in
       match r with
       | Py.Ok (pc, Some c) =>
           (draw w0 (mkPaintCall pc vector layer c stroke), Py.Ok (Some c))
       | Py.Ok (pc, None) => (w0, Py.Raise Py.UnboundLocalError)
       | Py.Raise e0 => (w0, Py.Raise e0)
       end) = (w', Py.Raise e) -> e = Py.IndexError) as Htbl.
    { intros tbl. destruct (Py.index tbl (stroke_color stroke)) eqn:I; cbn.
      - discriminate.
      - intros [= _ <-]. exact (index_raises _ _ _ I). }
    destruct penclass; intros Hp; left; exact (Htbl _ Hp).
  - destruct pencolor; cbn; [discriminate|]. intros [= _ <-]. now right.
Qed.

(** [paint_strokes] raises nothing but the two errors of the loop
    body. *)
Lemma paint_loop_raises layer vector strokes : forall pencolor w w' e,
  paint_loop PEN_MAPPING layer vector pencolor w strokes = (w', Some e) ->
  e = Py.IndexError \/ e = Py.UnboundLocalError.
Proof.
  induction strokes as [|stroke rest IH]; intros pencolor w w' e; cbn.
  - discriminate.
  - destruct (paint_one PEN_MAPPING layer vector pencolor w stroke)
      as [w1 [pc|e1]] eqn:P.
    + apply IH.
    + intros [= _ <-]. exact (paint_one_raises _ _ _ _ _ _ _ P).
Qed.

End DispatchFacts.

(** C7 fails when no earlier stroke of the layer bound [pencolor]: for a
    layer whose first stroke has an unknown pen code, [paint_strokes] logs
    the one error record, takes [GenericPen], and then raises
    [UnboundLocalError] on reading [pencolor]; nothing is painted. *)
Theorem paint_strokes_unknown_first_raises {G : Type}
    (PEN_MAPPING : gmap Z PenClass) (layer : DocumentPageLayer G)
    (w : World) (vector : bool) stroke rest :
  strokes layer = stroke :: rest ->
  PEN_MAPPING !! stroke_pen stroke = None ->
  paint_strokes PEN_MAPPING layer w vector
  = (log_error w ("Unknown pen code " +:+ pretty (stroke_pen stroke)),
     Some Py.UnboundLocalError).
Proof.
  intros Hs E. unfold paint_strokes. rewrite Hs. cbn.
  unfold paint_one, resolve. now rewrite E.
Qed.

Lemma paint_strokes_unknown_first_raises_witness :
  paint_strokes sample_mapping (sample_layer [sample_stroke 99 0])
    empty_world true
  = (mkWorld [("ERROR", "Unknown pen code 99")] [],
     Some Py.UnboundLocalError).
Proof.
  apply (paint_strokes_unknown_first_raises sample_mapping
           (sample_layer [sample_stroke 99 0]) empty_world true
           (sample_stroke 99 0) []);
    vm_compute; reflexivity.
Defined.

(** After a stroke with a known pen, an unknown pen code is painted by
    the generic pen, with one error record and the earlier color. *)
Example paint_strokes_unknown_second :
  paint_strokes sample_mapping
    (sample_layer [sample_stroke 4 0; sample_stroke 99 7]) empty_world true
  = (mkWorld [("ERROR", "Unknown pen code 99")]
       [ mkPaintCall (OtherPen "FinelinerPen") true "Layer 1"
           (rgb (56/255) (57/255) (56/255)) (sample_stroke 4 0);
         mkPaintCall GenericPen true "Layer 1"
           (rgb (56/255) (57/255) (56/255)) (sample_stroke 99 7) ],
     None).
Proof. vm_compute. reflexivity. Qed.

(** C8 (amended): the highlight table has 6 entries and the standard
    table 8; a stroke with a known pen reads the highlight table when its
    class is [HighlighterPen] and the standard table otherwise; a color
    code from 0 below the table's length selects that entry and the stroke
    is painted with it, and a code at or above the length raises
    [IndexError]. *)
Theorem paint_one_color_tables (PEN_MAPPING : gmap Z PenClass)
    (layer : string) (vector : bool) (pencolor : option Color) (w : World)
    (stroke : Stroke) (penclass : PenClass) :
  PEN_MAPPING !! stroke_pen stroke = Some penclass ->
  let table := match penclass with
               | HighlighterPen => highlight_colors
               | _ => colors
               end in
  length highlight_colors = 6 /\ length colors = 8
  /\ ((0 <= stroke_color stroke < Z.of_nat (length table))%Z ->
      exists c, table !! Z.to_nat (stroke_color stroke) = Some c
        /\ paint_one PEN_MAPPING layer vector pencolor w stroke
           = (draw w (mkPaintCall penclass vector layer c stroke),
              Py.Ok (Some c)))
  /\ ((Z.of_nat (length table) <= stroke_color stroke)%Z ->
      paint_one PEN_MAPPING layer vector pencolor w stroke
      = (w, Py.Raise Py.IndexError)).
Proof.
  intros E table. split; [reflexivity|]. split; [reflexivity|].
  unfold paint_one. rewrite (resolve_known _ _ _ _ _ E). fold table.
  split.
  - intros Hc. destruct (index_in_range table _ Hc) as [c [Hl Hi]].
    exists c. split; [exact Hl|]. now rewrite Hi.
  - intros Hc. now rewrite (index_beyond table _ Hc).
Qed.

Lemma paint_one_color_tables_witness :
  length highlight_colors = 6 /\ length colors = 8
  /\ ((0 <= 4 < 6)%Z ->
      exists c, highlight_colors !! 4 = Some c
        /\ paint_one sample_mapping "Layer 1" true None empty_world
             (sample_stroke 5 4)
           = (draw empty_world
                (mkPaintCall HighlighterPen true "Layer 1" c (sample_stroke 5 4)),
              Py.Ok (Some c)))
  /\ ((6 <= 4)%Z ->
      paint_one sample_mapping "Layer 1" true None empty_world
        (sample_stroke 5 4)
      = (empty_world, Py.Raise Py.IndexError)).
Proof.
  apply (paint_one_color_tables sample_mapping "Layer 1" true None empty_world
           (sample_stroke 5 4) HighlighterPen).
  vm_compute; reflexivity.
Defined.

(** C8, as stated, fails: color code 8 with a fine-liner and color code 6
    with the highlighter raise [IndexError], which is not the
    [FormatMismatch] error; nothing in the module catches it. *)
Lemma color_out_of_range_raises_IndexError :
  paint_strokes sample_mapping (sample_layer [sample_stroke 4 8])
    empty_world true
  = (empty_world, Some Py.IndexError)
  /\ paint_strokes sample_mapping (sample_layer [sample_stroke 5 6])
       empty_world true
     = (empty_world, Some Py.IndexError)
  /\ Py.IndexError <> Py.FormatMismatch.
Proof. repeat split; [vm_compute; reflexivity..|discriminate]. Qed.

(** A negative color code counts from the end of the table. *)
Example color_negative_wraps :
  Py.index colors (-1) = Py.Ok (rgb (228/255) (95/255) (89/255))
  /\ Py.index highlight_colors (-7) = Py.Raise Py.IndexError.
Proof. split; vm_compute; reflexivity. Qed.

(** C10: a layer is rendered in vector mode only.  With the vector flag
    false nothing is logged or painted and the assertion fails; with the
    flag true the call is [paint_strokes]; the assertion error is the
    outcome exactly when the flag is false. *)
Theorem render_to_painter_vector_only {G : Type}
    (PEN_MAPPING : gmap Z PenClass) (layer : DocumentPageLayer G)
    (w : World) (vector : bool) :
  render_to_painter PEN_MAPPING layer w false = (w, Some Py.AssertionError)
  /\ render_to_painter PEN_MAPPING layer w true
     = paint_strokes PEN_MAPPING layer w true
  /\ (snd (render_to_painter PEN_MAPPING layer w vector)
      = Some Py.AssertionError <-> vector = false).
Proof.
  split; [reflexivity|]. split; [reflexivity|].
  destruct vector; cbn; split; try reflexivity; try discriminate.
  intros Hr. unfold paint_strokes in Hr.
  destruct (paint_loop PEN_MAPPING (name layer) true None w (strokes layer))
    as [w' r] eqn:P.
  cbn in Hr. subst r.
  destruct (paint_loop_raises _ _ _ _ _ _ _ _ P); discriminate.
Qed.

Example render_to_painter_bitmap :
  render_to_painter sample_mapping (sample_layer [sample_stroke 4 0])
    empty_world false
  = (empty_world, Some Py.AssertionError).
Proof. reflexivity. Qed.

(* ===================================================================== *)
(** * Further properties of the adapter *)
(* ===================================================================== *)

Section AdapterMore.

Lemma spec_sealed_strokes blocks : forall cur pending,
  concat (map layer_strokes (spec_sealed cur pending blocks))
  = pending ++ line_strokes blocks.
Proof.
  induction blocks as [|b rest IH]; intros cur pending; cbn.
  - now rewrite app_nil_r.
  - destruct b as [[value|]|label|cls]; cbn.
    + rewrite IH. now rewrite <- app_assoc.
    + apply IH.
    + destruct (String.eqb cur label); cbn; [apply IH|].
      now rewrite IH.
    + apply IH.
Qed.

(** What follows the first sealed layer does not depend on the strokes
    pending at the start. *)
Lemma spec_sealed_tail blocks : forall cur p q,
  tail (spec_sealed cur p blocks) = tail (spec_sealed cur q blocks).
Proof.
  induction blocks as [|b rest IH]; intros cur p q; cbn.
  - reflexivity.
  - destruct b as [[value|]|label|cls]; cbn; try apply IH.
    destruct (String.eqb cur label); cbn; [apply IH | reflexivity].
Qed.

Lemma spec_sealed_app b1 b2 : forall cur pending,
  transition_labels cur b1 = [] ->
  spec_sealed cur pending (b1 ++ b2)
  = spec_sealed cur (pending ++ line_strokes b1) b2.
Proof.
  induction b1 as [|b rest IH]; intros cur pending Ht; cbn.
  - now rewrite app_nil_r.
  - destruct b as [[value|]|label|cls]; cbn in *.
    + rewrite IH by exact Ht. now rewrite <- app_assoc.
    + now apply IH.
    + destruct (String.eqb cur label); [now apply IH | discriminate].
    + now apply IH.
Qed.

Lemma scan_printed blocks : forall s,
  printed (fold_left scan_block blocks s)
  = printed s
    ++ map (fun cls => "warning: not converting block: " +:+ cls)
           (omap block_other blocks).
Proof.
  induction blocks as [|b rest IH]; intros s; cbn.
  - now rewrite app_nil_r.
  - destruct b as [[value|]|label|cls]; cbn.
    + now rewrite IH.
    + apply IH.
    + destruct (String.eqb (current_layer s) label); now rewrite IH.
    + rewrite IH. cbn. now rewrite <- app_assoc.
Qed.

Lemma spec_sealed_converted blocks : forall cur pending,
  spec_sealed cur pending (List.filter converted blocks)
  = spec_sealed cur pending blocks.
Proof.
  induction blocks as [|b rest IH]; intros cur pending; cbn.
  - reflexivity.
  - destruct b as [[value|]|label|cls]; cbn; try apply IH.
    destruct (String.eqb cur label); [apply IH | now rewrite IH].
Qed.

(** Every switch is to a label other than the current one. *)
Lemma transition_labels_adjacent blocks : forall cur i a b,
  (cur :: transition_labels cur blocks) !! i = Some a ->
  (cur :: transition_labels cur blocks) !! S i = Some b ->
  a <> b.
Proof.
  induction blocks as [|bl rest IH]; intros cur i a b Ha Hb.
  - destruct i; discriminate.
  - destruct bl as [[value|]|label|cls]; cbn in Ha, Hb;
      try exact (IH cur i a b Ha Hb).
    destruct (String.eqb cur label) eqn:E; [exact (IH cur i a b Ha Hb)|].
    apply String.eqb_neq in E. destruct i as [|i].
    + cbn in Ha, Hb. congruence.
    + exact (IH label i a b Ha Hb).
Qed.

Lemma get_layers_names blocks :
  map layer_name (get_layers blocks) = transition_labels "" blocks.
Proof.
  unfold get_layers. rewrite sealed_layers_spec.
  pose proof (spec_sealed_names blocks "" []) as Hn.
  destruct (spec_sealed "" [] blocks) as [|l ls]; [discriminate|].
  cbn in Hn. now injection Hn as _ Hn.
Qed.

End AdapterMore.

(** X1: no stroke of the stream is lost or reordered by the scan: the
    strokes of the line items with a payload, in stream order, are the
    strokes of the discarded first layer followed by the strokes of the
    returned layers. *)
Theorem get_layers_strokes_conserved (blocks : list Block) :
  exists pre,
    sealed_layers blocks = mkLayer pre "" :: get_layers blocks
    /\ line_strokes blocks
       = pre ++ concat (map layer_strokes (get_layers blocks)).
Proof.
  unfold get_layers. rewrite sealed_layers_spec.
  pose proof (spec_sealed_strokes blocks "" []) as Hc.
  pose proof (spec_sealed_names blocks "" []) as Hn.
  destruct (spec_sealed "" [] blocks) as [|[pre nm] ls]; [discriminate|].
  cbn in Hn. injection Hn as -> _. exists pre. split; [reflexivity|].
  cbn in Hc. cbn. now symmetry.
Qed.

(** X2: the blocks before the first group block with a non-empty label
    contribute nothing to the result: their strokes go to the discarded
    layer.  In particular a stream without such a group block gives no
    layer at all, whatever strokes it holds. *)
Theorem get_layers_prefix_dropped (b1 b2 : list Block) :
  transitions b1 = 0 ->
  get_layers (b1 ++ b2) = get_layers b2.
Proof.
  intros Ht. unfold transitions in Ht.
  apply length_zero_iff_nil in Ht.
  unfold get_layers. rewrite !sealed_layers_spec.
  rewrite (spec_sealed_app b1 b2 "" [] Ht). apply spec_sealed_tail.
Qed.

Lemma get_layers_prefix_dropped_witness :
  get_layers ([ SceneLineItemBlock (Some sample_line); TreeNodeBlock "";
                OtherBlock "PageInfoBlock" ]
              ++ [ TreeNodeBlock "A"; SceneLineItemBlock (Some sample_line) ])
  = get_layers [ TreeNodeBlock "A"; SceneLineItemBlock (Some sample_line) ].
Proof.
  apply (get_layers_prefix_dropped
           [ SceneLineItemBlock (Some sample_line); TreeNodeBlock "";
             OtherBlock "PageInfoBlock" ]).
  reflexivity.
Defined.

(** X3: blocks of other kinds and line items without a payload change
    nothing in the result; each block of another kind prints one warning
    with its class, in stream order, and nothing else is printed. *)
Theorem get_layers_ignores_unconverted (blocks : list Block) :
  get_layers (List.filter converted blocks) = get_layers blocks
  /\ printed (scan_blocks blocks)
     = map (fun cls => "warning: not converting block: " +:+ cls)
           (omap block_other blocks).
Proof.
  split.
  - unfold get_layers. rewrite !sealed_layers_spec.
    now rewrite spec_sealed_converted.
  - apply (scan_printed blocks scan_init).
Qed.

(** X4: the first returned layer has a non-empty name and no two
    consecutive returned layers have the same name. *)
Theorem get_layers_names_alternate (blocks : list Block) (i : nat) (a b : string) :
  ("" :: map layer_name (get_layers blocks)) !! i = Some a ->
  ("" :: map layer_name (get_layers blocks)) !! S i = Some b ->
  a <> b.
Proof.
  rewrite get_layers_names. apply transition_labels_adjacent.
Qed.

Lemma get_layers_names_alternate_witness :
  map layer_name
    (get_layers [ TreeNodeBlock "A"; SceneLineItemBlock (Some sample_line);
                  TreeNodeBlock "B" ])
  = ["A"; "B"]
  /\ "A"%string <> "B"%string.
Proof.
  split; [reflexivity|].
  apply (get_layers_names_alternate
           [ TreeNodeBlock "A"; SceneLineItemBlock (Some sample_line);
             TreeNodeBlock "B" ] 1 "A" "B"); reflexivity.
Defined.

(* ===================================================================== *)
(** * Further properties of loading *)
(* ===================================================================== *)

Section LoadingMore.
Context {J G : Type} `{Readers J}.

Lemma load_highlights_none (highlightdict : option J) pagelayers :
  no_highlights highlightdict = true ->
  load_highlights highlightdict pagelayers = Py.Ok pagelayers.
Proof.
  unfold no_highlights, load_highlights.
  destruct highlightdict as [d|]; [|reflexivity].
  now destruct (truthy d).
Qed.

Lemma layer_objects_annot_paths metadict pagelayers :
  Forall (fun l : DocumentPageLayer G => annot_paths l = [])
         (layer_objects metadict pagelayers).
Proof.
  apply Forall_forall. intros l Hl. destruct pagelayers as [ls|ls]; cbn in Hl.
  - apply list_elem_of_In, in_map_iff in Hl as [x [<- _]]. reflexivity.
  - apply list_elem_of_lookup in Hl as [i Hi].
    rewrite list_lookup_imap in Hi.
    destruct (ls !! i); [|discriminate]. now injection Hi as <-.
Qed.

(** [load_layers] touches no field but the layers, which it extends. *)
Lemma load_layers_fields (page page' : DocumentPage J G) :
  load_layers page = Py.Ok page' ->
  page_source page' = page_source page
  /\ page_num page' = page_num page
  /\ page_rmpath page' = page_rmpath page
  /\ page_version page' = page_version page
  /\ page_template page' = page_template page
  /\ exists new, page_layers page' = page_layers page ++ new
       /\ Forall (fun l => annot_paths l = []) new.
Proof.
  unfold load_layers.
  destruct (negb (source_exists (page_source page) (page_rmpath page))).
  - intros [= <-]. repeat split. exists []. now rewrite app_nil_r.
  - destruct (source_open _ _) as [f|e]; [|discriminate]. cbn.
    destruct (read_pagelayers _ f) as [pl|e]; [|discriminate]. cbn.
    destruct (load_highlights _ pl) as [pl'|e]; [|discriminate]. cbn.
    intros [= <-]. repeat split. eexists. split; [reflexivity|].
    apply layer_objects_annot_paths.
Qed.

End LoadingMore.

(** X5: a page the constructor returns has the source and number it was
    given, its stroke file is one of the two candidate paths and exists in
    the source, and none of its layers holds an annotation path yet, so
    its grouped annotations are empty for every layer. *)
Theorem init_page_invariants {J G : Type} `{Readers J} `{Geometry G}
    (source : Source) pid pagenum template_name (page : DocumentPage J G) :
  DocumentPage_init source pid pagenum template_name = Py.Ok page ->
  page_source page = source
  /\ page_num page = pagenum
  /\ (page_rmpath page = "{ID}/" +:+ pid +:+ ".rm"
      \/ page_rmpath page = "{ID}/" +:+ pretty pagenum +:+ ".rm")
  /\ source_exists source (page_rmpath page) = true
  /\ page_grouped_annotations page
     = map (fun l => (name l, [])) (page_layers page).
Proof.
  unfold DocumentPage_init.
  set (pid' := if source_exists source ("{ID}/" +:+ pid +:+ ".rm")
               then pid else pretty pagenum).
  assert ("{ID}/" +:+ pid' +:+ ".rm" = "{ID}/" +:+ pid +:+ ".rm"
          \/ "{ID}/" +:+ pid' +:+ ".rm" = "{ID}/" +:+ pretty pagenum +:+ ".rm")
    as Hpath.
  { unfold pid'. destruct (source_exists _ _); [now left | now right]. }
  intros Hl. unfold source_open at 1 in Hl.
  destruct (source !! ("{ID}/" +:+ pid' +:+ ".rm")) as [f|] eqn:E;
    cbn in Hl; [|discriminate].
  destruct (getVersion f) as [v|e]; cbn in Hl; [|discriminate].
  destruct (load_json source ("{ID}/" +:+ pid' +:+ "-metadata.json"))
    as [md|e]; cbn in Hl; [|discriminate].
  destruct (load_json source ("{ID}.highlights/" +:+ pid +:+ ".json"))
    as [hd|e]; cbn in Hl; [|discriminate].
  destruct (load_template source v pagenum template_name) as [t|e];
    cbn in Hl; [|discriminate].
  destruct (load_layers_fields _ _ Hl)
    as (Hs & Hn & Hr & _ & _ & new & Hnew & Hall).
  cbn in Hs, Hn, Hr, Hnew.
  rewrite Hs, Hn, Hr. repeat split; try assumption.
  - exact (source_exists_Some _ _ _ E).
  - unfold page_grouped_annotations. rewrite Hnew.
    apply map_ext_Forall. eapply Forall_impl; [exact Hall|].
    intros l Hnil. unfold get_grouped_annotations. rewrite Hnil.
    now rewrite grouping_func_eq.
Qed.

Lemma init_page_invariants_witness :
  exists page,
    DocumentPage_init (H := sample_readers) (G := list QRectF)
      (legacy_source 3) "p1" 0 NameNone = Py.Ok page
    /\ page_source page = legacy_source 3
    /\ page_num page = 0%Z
    /\ (page_rmpath page = "{ID}/" +:+ "p1" +:+ ".rm"
        \/ page_rmpath page = "{ID}/" +:+ pretty 0%Z +:+ ".rm")
    /\ source_exists (legacy_source 3) (page_rmpath page) = true
    /\ page_grouped_annotations page
       = map (fun l => (name l, [])) (page_layers page).
Proof.
  eexists. split; [vm_compute; reflexivity|].
  apply (init_page_invariants (H := sample_readers)
           (legacy_source 3) "p1" 0%Z NameNone).
  vm_compute; reflexivity.
Defined.

(** X6: on the legacy path without a highlight merge, layer [i] of the
    page holds the strokes of the reader's layer [i] and is named by the
    metadata entry [i] when that lookup succeeds and ['Layer ' + str(i+1)]
    otherwise; no layer is dropped or added. *)
Theorem load_layers_legacy_names {J G : Type} `{Readers J}
    (page : DocumentPage J G) f primary :
  (page_version page =? 6)%Z = false ->
  page_source page !! page_rmpath page = Some f ->
  readLines f = Py.Ok primary ->
  no_highlights (page_highlightdict page) = true ->
  exists page',
    load_layers page = Py.Ok page'
    /\ length (page_layers page')
       = length (page_layers page) + length primary
    /\ forall i layerstrokes, primary !! i = Some layerstrokes ->
         page_layers page' !! (length (page_layers page) + i)
         = Some (mkDocumentPageLayer
                   (match page_metadict page ≫= (fun d => layer_name_of d i) with
                    | Some n => n
                    | None => "Layer " +:+ pretty (S i)
                    end)
                   layerstrokes []).
Proof.
  intros Hv E R Hn. eexists. split.
  - rewrite (load_layers_present _ _ E). unfold read_pagelayers.
    rewrite Hv, R. cbn. rewrite (load_highlights_none _ _ Hn). reflexivity.
  - cbn [set_layers page_layers layer_objects]. split.
    + now rewrite length_app, length_imap.
    + intros i s Hi. rewrite lookup_app_r by lia.
      replace (length (page_layers page) + i - length (page_layers page))
        with i by lia.
      rewrite list_lookup_imap, Hi. reflexivity.
Qed.

Lemma load_layers_legacy_names_witness :
  exists page',
    load_layers (H := sample_readers)
      (mkDocumentPage (G := list QRectF) (legacy_source 0) 0 "{ID}/p1.rm" 5
         None None None [])
    = Py.Ok page'
    /\ map name (page_layers page') = ["Layer 1"; "Layer 2"; "Layer 3"].
Proof.
  destruct (load_layers_legacy_names (H := sample_readers)
              (mkDocumentPage (G := list QRectF) (legacy_source 0) 0
                 "{ID}/p1.rm" 5 None None None [])
              [Byte.x05; Byte.x01; Byte.x02; Byte.x03]
              (sample_lines [Byte.x05; Byte.x01; Byte.x02; Byte.x03])
              eq_refl eq_refl eq_refl eq_refl) as [page' [Hl _]].
  exists page'. split; [exact Hl|].
  vm_compute in Hl. injection Hl as <-. reflexivity.
Defined.

(** X7: on the version-6 path without a highlight merge, the page gets
    one layer per label transition of the block stream, named by the
    labels switched to, with the strokes [get_layers] collected. *)
Theorem load_layers_v6_names {J G : Type} `{Readers J}
    (page : DocumentPage J G) f :
  (page_version page =? 6)%Z = true ->
  page_source page !! page_rmpath page = Some f ->
  no_highlights (page_highlightdict page) = true ->
  exists new,
    load_layers page = Py.Ok (set_layers page (page_layers page ++ new))
    /\ length new = transitions (read_blocks f)
    /\ map name new = transition_labels "" (read_blocks f)
    /\ map strokes new = map layer_strokes (get_layers (read_blocks f)).
Proof.
  intros Hv E Hn. eexists. split.
  - rewrite (load_layers_present _ _ E). unfold read_pagelayers.
    rewrite Hv. cbn. rewrite (load_highlights_none _ _ Hn). reflexivity.
  - pose proof (get_layers_names (read_blocks f)) as Hnm.
    cbn [layer_objects]. rewrite length_map, !map_map. cbn.
    repeat split; [|exact Hnm].
    unfold transitions. now rewrite <- Hnm, length_map.
Qed.

Lemma load_layers_v6_names_witness :
  exists new,
    load_layers (H := sample_readers)
      (mkDocumentPage (G := list QRectF) v6_source 0 "{ID}/p1.rm" 6
         None None None [])
    = Py.Ok (set_layers
               (mkDocumentPage (G := list QRectF) v6_source 0 "{ID}/p1.rm" 6
                  None None None [])
               ([] ++ new))
    /\ length new = transitions (sample_blocks [Byte.x06; Byte.x02])
    /\ map name new = transition_labels "" (sample_blocks [Byte.x06; Byte.x02])
    /\ map strokes new
       = map layer_strokes (get_layers (sample_blocks [Byte.x06; Byte.x02])).
Proof.
  apply (load_layers_v6_names (H := sample_readers)
           (mkDocumentPage (G := list QRectF) v6_source 0 "{ID}/p1.rm" 6
              None None None [])
           [Byte.x06; Byte.x02]); reflexivity.
Defined.

Section HighlightEdge.
Context {J G : Type} `{Readers J}.

Lemma map2_nil_r {A B C} (f : A -> B -> Py.result C) xs :
  Py.map2 f xs [] = Py.Ok [].
Proof. now destruct xs. Qed.

Lemma merge_highlights_nil pagelayers :
  exists empty,
    merge_highlights pagelayers [] = Py.Ok empty
    /\ layer_objects (G := G) (J := J) None empty = []
    /\ forall metadict, layer_objects (G := G) metadict empty = [].
Proof.
  destruct pagelayers as [ls|ls]; cbn; rewrite map2_nil_r; cbn;
    eexists; repeat split.
Qed.

End HighlightEdge.

(** X8: when the highlight value is true and the highlight reader returns
    no layer, the merge keeps nothing: the page gets no layer at all, on
    either schema path, however many primary layers were read, and no
    error is raised. *)
Theorem load_layers_empty_highlights {J G : Type} `{Readers J}
    (page : DocumentPage J G) f d pagelayers :
  page_source page !! page_rmpath page = Some f ->
  read_pagelayers (page_version page) f = Py.Ok pagelayers ->
  page_highlightdict page = Some d ->
  truthy d = true ->
  readHighlights d = Py.Ok [] ->
  load_layers page = Py.Ok (set_layers page (page_layers page)).
Proof.
  intros E R Hd Ht Rh. rewrite (load_layers_present _ _ E), R. cbn.
  unfold load_highlights. rewrite Hd, Ht, Rh. cbn.
  destruct (merge_highlights_nil (G := G) pagelayers) as [empty [-> [_ Hobj]]].
  cbn. now rewrite Hobj, app_nil_r.
Qed.

Lemma load_layers_empty_highlights_witness :
  load_layers (H := keyed_readers)
    (mkDocumentPage (G := list QRectF) (legacy_source 0) 0 "{ID}/p1.rm" 5
       None (Some []) None [])
  = Py.Ok (mkDocumentPage (legacy_source 0) 0 "{ID}/p1.rm" 5
             None (Some []) None []).
Proof.
  apply (load_layers_empty_highlights (H := keyed_readers)
           (mkDocumentPage (G := list QRectF) (legacy_source 0) 0
              "{ID}/p1.rm" 5 None (Some []) None [])
           [Byte.x05; Byte.x01; Byte.x02; Byte.x03] []
           (FromLines (sample_lines [Byte.x05; Byte.x01; Byte.x02; Byte.x03])));
    reflexivity.
Defined.

(** The same page through the constructor: three primary layers, an
    empty highlight list, no layer. *)
Example init_empty_highlights :
  layer_summary
    (DocumentPage_init (H := keyed_readers) (G := list QRectF)
       (legacy_source 0) "p1" 0 NameNone)
  = Py.Ok [].
Proof. vm_compute. reflexivity. Qed.

Section TemplateFacts.
Context {J : Type} `{Readers J}.

Lemma resolve_template_exists t p :
  resolve_template t = Some p -> template_exists p = true.
Proof.
  unfold resolve_template.
  destruct (_ && template_exists (svg_name t)) eqn:E; [|discriminate].
  intros [= <-]. now apply andb_true_iff in E as [_ E].
Qed.

Lemma load_template_exists source ver num t p :
  load_template source ver num t = Py.Ok (Some p) ->
  template_exists p = true.
Proof.
  unfold load_template. destruct (ver =? 6)%Z.
  - intros [= Hr]. exact (resolve_template_exists _ _ Hr).
  - destruct (source_exists source "{ID}.pagedata").
    + destruct (source_open source "{ID}.pagedata") as [f|e]; cbn;
        [|discriminate].
      destruct (splitlines f) as [|n ns]; [discriminate|].
      intros [= Hr]. exact (resolve_template_exists _ _ Hr).
    + cbn. discriminate.
Qed.

(** On the legacy path the [template_name] argument is not read. *)
Lemma load_template_legacy_arg source ver num t1 t2 :
  (ver =? 6)%Z = false ->
  load_template source ver num t1 = load_template source ver num t2.
Proof. intros Hv. unfold load_template. now rewrite Hv. Qed.

End TemplateFacts.

Section InitFacts.
Context {J G : Type} `{Readers J}.

(** The steps of a constructor call that returns. *)
Lemma init_inv (source : Source) pid pagenum t (page : DocumentPage J G) :
  DocumentPage_init source pid pagenum t = Py.Ok page ->
  exists f v md hd tpl,
    source !! chosen_rmpath source pid pagenum = Some f
    /\ getVersion f = Py.Ok v
    /\ load_template source v pagenum t = Py.Ok tpl
    /\ load_layers (mkDocumentPage source pagenum
                      (chosen_rmpath source pid pagenum) v md hd tpl [])
       = Py.Ok page
    /\ forall t' tpl',
         load_template source v pagenum t' = Py.Ok tpl' ->
         DocumentPage_init (G := G) source pid pagenum t'
         = load_layers (mkDocumentPage source pagenum
                          (chosen_rmpath source pid pagenum) v md hd tpl' []).
Proof.
  unfold DocumentPage_init, chosen_rmpath.
  set (pid' := if source_exists source ("{ID}/" +:+ pid +:+ ".rm")
               then pid else pretty pagenum).
  intros Hl. unfold source_open at 1 in Hl. unfold source_open at 1.
  destruct (source !! ("{ID}/" +:+ pid' +:+ ".rm")) as [f|] eqn:E;
    cbn in Hl; [|discriminate].
  destruct (getVersion f) as [v|e] eqn:V; cbn in Hl; [|discriminate].
  destruct (load_json source ("{ID}/" +:+ pid' +:+ "-metadata.json"))
    as [md|e]; cbn in Hl; [|discriminate].
  destruct (load_json source ("{ID}.highlights/" +:+ pid +:+ ".json"))
    as [hd|e]; cbn in Hl; [|discriminate].
  destruct (load_template source v pagenum t) as [tpl|e] eqn:T;
    cbn in Hl; [|discriminate].
  exists f, v, md, hd, tpl.
  split; [first [reflexivity | exact E]|].
  split; [first [reflexivity | exact V]|].
  split; [first [reflexivity | exact T]|].
  split; [exact Hl|].
  intros t' tpl' T'. cbn. rewrite V. cbn. now rewrite T'.
Qed.

End InitFacts.

(** X9: on the legacy path the constructor does not read its
    [template_name] argument: a legacy page built with one template name
    is built identically with any other. *)
Theorem init_legacy_ignores_template_name {J G : Type} `{Readers J}
    (source : Source) pid pagenum t1 t2 (page : DocumentPage J G) :
  DocumentPage_init source pid pagenum t1 = Py.Ok page ->
  (page_version page =? 6)%Z = false ->
  DocumentPage_init source pid pagenum t2 = Py.Ok page.
Proof.
  intros Hi Hv.
  destruct (init_inv _ _ _ _ _ Hi) as (f & v & md & hd & tpl & _ & _ & T & Hl & Hre).
  destruct (load_layers_fields _ _ Hl) as (_ & _ & _ & Hver & _).
  cbn in Hver. rewrite Hver in Hv.
  rewrite (Hre t2 tpl); [exact Hl|].
  now rewrite (load_template_legacy_arg source v pagenum t2 t1 Hv).
Qed.

Lemma init_legacy_ignores_template_name_witness :
  exists page,
    DocumentPage_init (H := pagedata_readers) (G := list QRectF)
      pagedata_source "p1" 0 (NameStr "Grid") = Py.Ok page
    /\ DocumentPage_init (H := pagedata_readers) (G := list QRectF)
         pagedata_source "p1" 0 NameNone = Py.Ok page
    /\ page_template page = Some "Lined.svg".
Proof.
  eexists. split; [vm_compute; reflexivity|]. split; [|reflexivity].
  apply (init_legacy_ignores_template_name (H := pagedata_readers)
           pagedata_source "p1" 0%Z (NameStr "Grid") NameNone);
    vm_compute; reflexivity.
Defined.

(** X10: a template path the constructor stores names a template file
    that exists. *)
Theorem init_template_exists {J G : Type} `{Readers J}
    (source : Source) pid pagenum t (page : DocumentPage J G) p :
  DocumentPage_init source pid pagenum t = Py.Ok page ->
  page_template page = Some p ->
  template_exists p = true.
Proof.
  intros Hi Hp.
  destruct (init_inv _ _ _ _ _ Hi) as (f & v & md & hd & tpl & _ & _ & T & Hl & _).
  destruct (load_layers_fields _ _ Hl) as (_ & _ & _ & _ & Htpl & _).
  cbn in Htpl. rewrite Htpl in Hp. subst tpl.
  exact (load_template_exists _ _ _ _ _ T).
Qed.

Lemma init_template_exists_witness :
  template_exists (Readers := pagedata_readers) "Lined.svg" = true.
Proof.
  eapply (init_template_exists (H := pagedata_readers) (G := list QRectF)
            pagedata_source "p1" 0%Z NameNone);
    vm_compute; reflexivity.
Defined.

(** X11: the template of a legacy page with a page-data file.  A page
    number within the file takes the line of that number; a page number at
    or beyond the number of lines takes the one-element list
    [[len - 1]] as the name, so the file looked for is ['[n].svg'] with
    [n = len - 1], not the template of the last line. *)
Theorem load_template_legacy_lines {J : Type} `{Readers J}
    (source : Source) ver num t f :
  (ver =? 6)%Z = false ->
  source !! "{ID}.pagedata" = Some f ->
  0 < length (splitlines f) ->
  ((0 <= num < Z.of_nat (length (splitlines f)))%Z ->
   exists line, splitlines f !! Z.to_nat num = Some line
     /\ load_template source ver num t
        = Py.Ok (if negb (String.eqb line "Blank")
                    && template_exists (line +:+ ".svg")
                 then Some (line +:+ ".svg") else None))
  /\ ((Z.of_nat (length (splitlines f)) <= num)%Z ->
      let nm := "[" +:+ pretty (Z.of_nat (length (splitlines f)) - 1)%Z
                +:+ "].svg" in
      load_template source ver num t
      = Py.Ok (if template_exists nm then Some nm else None)).
Proof.
  intros Hv E Hlen. unfold load_template, source_open.
  rewrite Hv, (source_exists_Some _ _ _ E), E. cbn.
  destruct (splitlines f) as [|n ns] eqn:S; [cbn in Hlen; lia|].
  split.
  - intros Hin. destruct (index_in_range (n :: ns) num Hin) as [line [Hl Hi]].
    exists line. split; [exact Hl|]. now rewrite Hi.
  - intros Hout. rewrite (index_beyond (n :: ns) num Hout).
    rewrite Z.min_r by lia. reflexivity.
Qed.

Lemma load_template_legacy_lines_witness :
  ((0 <= 5 < 2)%Z ->
   exists line, [ "Lined"; "Blank" ] !! Z.to_nat 5 = Some line
     /\ load_template (H := pagedata_readers) pagedata_source 5 5 NameNone
        = Py.Ok (if negb (String.eqb line "Blank") && true
                 then Some (line +:+ ".svg") else None))
  /\ ((2 <= 5)%Z ->
      load_template (H := pagedata_readers) pagedata_source 5 5 NameNone
      = Py.Ok (Some "[1].svg")).
Proof.
  apply (load_template_legacy_lines (H := pagedata_readers)
           pagedata_source 5 5 NameNone [Byte.x01; Byte.x00]);
    [reflexivity | reflexivity | cbn; lia].
Defined.

(* ===================================================================== *)
(** * Further properties of clustering *)
(* ===================================================================== *)

Section ClusteringMore.
Context {G : Type} `{Geometry G}.

Lemma place_length_ge newset p :
  length newset <= length (place newset p) /\ 1 <= length (place newset p).
Proof.
  unfold place. destruct (fit _ _ _) as [r|] eqn:E.
  - rewrite (fit_length _ _ _ _ E). split; [lia|].
    destruct newset; [discriminate | cbn; lia].
  - rewrite length_app. cbn. lia.
Qed.

Lemma fold_place_length_ge l : forall acc,
  length acc <= length (fold_left place l acc).
Proof.
  induction l as [|p rest IH]; intros acc; cbn; [lia|].
  specialize (IH (place acc p)). pose proof (place_length_ge acc p). lia.
Qed.

Lemma pass_nonempty l : l <> [] -> 1 <= length (pass l).
Proof.
  destruct l as [|p rest]; [congruence|]. intros _. unfold pass. cbn.
  pose proof (fold_place_length_ge rest [p]) as Hge. cbn in Hge. lia.
Qed.

(** A further call of [grouping_func] on the result of a pass gives what
    the call on the list itself gives. *)
Lemma grouping_func_pass l : grouping_func (pass l) = grouping_func l.
Proof.
  rewrite (grouping_func_eq l).
  destruct (length (pass l) =? length l) eqn:E; [|reflexivity].
  apply Nat.eqb_eq in E. destruct (pass_same_length l E) as [Hs Hp].
  rewrite Hp. now apply grouping_func_fixed.
Qed.

Lemma of_type_cons k (g : string * G) l :
  of_type k (g :: l)
  = if decide (fst g = k) then g :: of_type k l else of_type k l.
Proof. unfold of_type. now rewrite filter_cons. Qed.

Lemma of_type_app k (l1 l2 : list (string * G)) :
  of_type k (l1 ++ l2) = of_type k l1 ++ of_type k l2.
Proof. unfold of_type. apply filter_app. Qed.

Lemma fit_of_type annotype path newset :
  fit annotype path (of_type annotype newset)
  = of_type annotype <$> fit annotype path newset.
Proof.
  induction newset as [|g rest IH]; [reflexivity|].
  rewrite of_type_cons. cbn [fit].
  destruct (decide (fst g = annotype)) as [Hg|Hg].
  - cbn [fit]. apply String.eqb_eq in Hg as Hb. rewrite Hb. cbn [negb].
    destruct (intersects path (snd g)).
    + cbn [fmap option_fmap option_map]. rewrite of_type_cons.
      cbn [fst]. now rewrite decide_True.
    + rewrite IH.
      destruct (fit annotype path rest); cbn [fmap option_fmap option_map];
        [|reflexivity].
      rewrite of_type_cons. now rewrite decide_True.
  - apply String.eqb_neq in Hg as Hb. rewrite Hb. cbn [negb].
    rewrite IH.
    destruct (fit annotype path rest); cbn [fmap option_fmap option_map];
      [|reflexivity].
    rewrite of_type_cons. now rewrite decide_False.
Qed.

Lemma fit_other_type annotype k path newset newset' :
  k <> annotype ->
  fit annotype path newset = Some newset' ->
  of_type k newset' = of_type k newset.
Proof.
  intros Hk. revert newset'.
  induction newset as [|g rest IH]; intros newset' Hf; [discriminate|].
  cbn [fit] in Hf.
  destruct (String.eqb (fst g) annotype) eqn:Hb; cbn [negb] in Hf.
  - apply String.eqb_eq in Hb.
    destruct (intersects path (snd g)).
    + injection Hf as <-. rewrite !of_type_cons. cbn [fst].
      rewrite decide_False by congruence.
      now rewrite decide_False by congruence.
    + destruct (fit annotype path rest) as [r|]; [|discriminate].
      injection Hf as <-. rewrite !of_type_cons.
      now rewrite (IH r eq_refl).
  - destruct (fit annotype path rest) as [r|]; [|discriminate].
    injection Hf as <-. rewrite !of_type_cons.
    now rewrite (IH r eq_refl).
Qed.

Lemma place_of_type k newset p :
  of_type k (place newset p)
  = if decide (fst p = k) then place (of_type k newset) p
    else of_type k newset.
Proof.
  unfold place. destruct (decide (fst p = k)) as [<-|Hk].
  - rewrite fit_of_type.
    destruct (fit (fst p) (snd p) newset); cbn [fmap option_fmap option_map].
    + reflexivity.
    + rewrite of_type_app, of_type_cons, decide_True by done.
      reflexivity.
  - destruct (fit (fst p) (snd p) newset) as [r|] eqn:F.
    + apply (fit_other_type _ _ _ _ _ (not_eq_sym Hk) F).
    + rewrite of_type_app, of_type_cons, decide_False by done.
      apply app_nil_r.
Qed.

Lemma fold_place_of_type k l : forall acc,
  of_type k (fold_left place l acc)
  = fold_left place (of_type k l) (of_type k acc).
Proof.
  induction l as [|p rest IH]; intros acc; [reflexivity|]. cbn [fold_left].
  rewrite IH, place_of_type, of_type_cons.
  destruct (decide (fst p = k)); reflexivity.
Qed.

Lemma pass_of_type k l : of_type k (pass l) = pass (of_type k l).
Proof. apply (fold_place_of_type k l []). Qed.

End ClusteringMore.

(** X12: clustering never adds a group and never loses all of them: the
    result is no longer than the input, and non-empty when the input
    is. *)
Theorem grouping_func_length {G : Type} `{Geometry G}
    (pathset : list (string * G)) :
  length (grouping_func pathset) <= length pathset
  /\ (pathset <> [] -> grouping_func pathset <> []).
Proof.
  induction pathset as [l IH] using (induction_ltof1 _ (@length _)).
  rewrite grouping_func_eq. pose proof (pass_length l) as Hle.
  destruct (length (pass l) =? length l) eqn:E.
  - split; [exact Hle|]. intros Hne Hnil.
    pose proof (pass_nonempty l Hne) as H1. rewrite Hnil in H1. cbn in H1. lia.
  - apply Nat.eqb_neq in E.
    destruct (IH (pass l)) as [IH1 IH2]; [unfold ltof; lia|].
    split; [lia|]. intros Hne. apply IH2. intros Hnil.
    pose proof (pass_nonempty l Hne) as H1. rewrite Hnil in H1. cbn in H1. lia.
Qed.

(** X13: [grouping_func] is entered at most [len(pathset)] times, and
    once for the empty list: every call but the last works on a strictly
    shorter, non-empty list. *)
Theorem grouping_calls_bound {G : Type} `{Geometry G}
    (pathset : list (string * G)) :
  1 <= grouping_calls pathset <= Nat.max 1 (length pathset).
Proof.
  induction pathset as [l IH] using (induction_ltof1 _ (@length _)).
  rewrite grouping_calls_eq. pose proof (pass_length l) as Hle.
  destruct (length (pass l) =? length l) eqn:E; [lia|].
  apply Nat.eqb_neq in E.
  destruct (IH (pass l)) as [IH1 IH2]; [unfold ltof; lia|].
  assert (l <> []) as Hne by (intros ->; now apply E).
  pose proof (pass_nonempty l Hne). lia.
Qed.

(** X14: annotation types are clustered independently of each other: the
    groups of one type in the result are what clustering the shapes of
    that type alone gives. *)
Theorem grouping_func_of_type {G : Type} `{Geometry G}
    (annotype : string) (pathset : list (string * G)) :
  of_type annotype (grouping_func pathset)
  = grouping_func (of_type annotype pathset).
Proof.
  induction pathset as [l IH] using (induction_ltof1 _ (@length _)).
  rewrite (grouping_func_eq l). pose proof (pass_length l) as Hle.
  destruct (length (pass l) =? length l) eqn:E.
  - apply Nat.eqb_eq in E. destruct (pass_same_length l E) as [_ Hp].
    rewrite Hp. rewrite (grouping_func_eq (of_type annotype l)).
    rewrite <- pass_of_type, Hp. now rewrite Nat.eqb_refl.
  - apply Nat.eqb_neq in E. rewrite IH by (unfold ltof; lia).
    rewrite pass_of_type. apply grouping_func_pass.
Qed.

Section ClusteringConserves.
Context {G X : Type} `{Geometry G}.
Variable parts : G -> list X.
Hypothesis parts_united : forall a b, parts (united a b) ≡ₚ parts a ++ parts b.

(** The parts of all shapes of a list. *)
Let all_parts (l : list (string * G)) : list X :=
  concat (map (fun p => parts (snd p)) l).

Lemma fit_parts annotype path newset newset' :
  fit annotype path newset = Some newset' ->
  all_parts newset' ≡ₚ all_parts newset ++ parts path.
Proof.
  revert newset'.
  induction newset as [|g rest IH]; intros newset' Hf; [discriminate|].
  cbn [fit] in Hf. unfold all_parts in *.
  assert (forall r, fit annotype path rest = Some r ->
            concat (map (fun p => parts (snd p)) (g :: r))
            ≡ₚ concat (map (fun p => parts (snd p)) (g :: rest)) ++ parts path)
    as Hrest.
  { intros r Hr. cbn. rewrite (IH r Hr). now rewrite app_assoc. }
  destruct (negb (String.eqb (fst g) annotype)).
  - destruct (fit annotype path rest) as [r|]; [|discriminate].
    injection Hf as <-. now apply Hrest.
  - destruct (intersects path (snd g)).
    + injection Hf as <-. cbn. rewrite parts_united.
      rewrite <- !app_assoc. apply Permutation_app_head.
      apply Permutation_app_comm.
    + destruct (fit annotype path rest) as [r|]; [|discriminate].
      injection Hf as <-. now apply Hrest.
Qed.

Lemma place_parts newset p :
  all_parts (place newset p) ≡ₚ all_parts newset ++ parts (snd p).
Proof.
  unfold place. destruct (fit _ _ _) as [r|] eqn:F.
  - exact (fit_parts _ _ _ _ F).
  - unfold all_parts. rewrite map_app, concat_app. cbn.
    now rewrite app_nil_r.
Qed.

Lemma fold_place_parts l : forall acc,
  all_parts (fold_left place l acc) ≡ₚ all_parts acc ++ all_parts l.
Proof.
  induction l as [|p rest IH]; intros acc; cbn [fold_left].
  - unfold all_parts. cbn. now rewrite app_nil_r.
  - rewrite IH, place_parts. unfold all_parts. cbn.
    now rewrite app_assoc.
Qed.

Lemma grouping_func_parts l : all_parts (grouping_func l) ≡ₚ all_parts l.
Proof.
  induction l as [l IH] using (induction_ltof1 _ (@length _)).
  rewrite grouping_func_eq. pose proof (pass_length l) as Hle.
  assert (all_parts (pass l) ≡ₚ all_parts l) as Hp.
  { unfold pass. now rewrite fold_place_parts. }
  destruct (length (pass l) =? length l) eqn:E; [exact Hp|].
  apply Nat.eqb_neq in E. rewrite IH by (unfold ltof; lia). exact Hp.
Qed.

End ClusteringConserves.

(** X15: clustering loses and duplicates nothing.  For any decomposition
    of paths into parts that [united] joins, the parts of the returned
    groups are the parts of the input shapes, up to order. *)
Theorem grouping_func_conserves {G X : Type} `{Geometry G}
    (parts : G -> list X) (pathset : list (string * G)) :
  (forall a b, parts (united a b) ≡ₚ parts a ++ parts b) ->
  concat (map (fun p => parts (snd p)) (grouping_func pathset))
  ≡ₚ concat (map (fun p => parts (snd p)) pathset).
Proof. intros Hu. exact (grouping_func_parts parts Hu pathset). Qed.

Lemma grouping_func_conserves_witness :
  concat (map (fun p => id (snd p))
            (grouping_func [ ("Highlight", unit_square 0 0);
                             ("Highlight", unit_square 0.5 0.5);
                             ("Highlight", unit_square 5 5) ]))
  ≡ₚ concat (map (fun p => id (snd p))
               [ ("Highlight", unit_square 0 0);
                 ("Highlight", unit_square 0.5 0.5);
                 ("Highlight", unit_square 5 5) ]).
Proof.
  apply (grouping_func_conserves (H := region_geometry) id).
  intros a b. reflexivity.
Defined.

(* ===================================================================== *)
(** * Further properties of painting *)
(* ===================================================================== *)

Section PaintingMore.
Variable PEN_MAPPING : gmap Z PenClass.

(** What one iteration does to the world: a stroke that is painted adds
    its call, and only an unknown pen adds a record. *)
Lemma paint_one_effect layer vector pencolor w stroke w' r :
  paint_one PEN_MAPPING layer vector pencolor w stroke = (w', r) ->
  log w' = log w ++ (if unknown_pen PEN_MAPPING stroke
                     then [unknown_record stroke] else [])
  /\ match r with
     | Py.Ok pencolor' =>
         exists c penclass, pencolor' = Some c
           /\ canvas w'
              = canvas w ++ [mkPaintCall penclass vector layer c stroke]
     | Py.Raise _ => canvas w' = canvas w
     end.
Proof.
  unfold paint_one, resolve, unknown_pen.
  destruct (PEN_MAPPING !! stroke_pen stroke) as [penclass|].
  - assert (forall tbl,
      (let (w0, r0) := (w, c ← Py.index tbl (stroke_color stroke);
                           Py.Ok (penclass, Some c)) in
       match r0 with
       | Py.Ok (pc, Some c) =>
           (draw w0 (mkPaintCall pc vector layer c stroke), Py.Ok (Some c))
       | Py.Ok (pc, None) => (w0, Py.Raise Py.UnboundLocalError)
       | Py.Raise e0 => (w0, Py.Raise e0)
       end) = (w', r) ->
      log w' = log w ++ []
      /\ match r with
         | Py.Ok pencolor' =>
             exists c penclass, pencolor' = Some c
               /\ canvas w'
                  = canvas w ++ [mkPaintCall penclass vector layer c stroke]
         | Py.Raise _ => canvas w' = canvas w
         end) as Htbl.
    { intros tbl. destruct (Py.index tbl (stroke_color stroke)) as [c|e]; cbn;
        intros [= <- <-]; cbn; rewrite app_nil_r; split; try reflexivity.
      now exists c, penclass. }
    destruct penclass; apply Htbl.
  - destruct pencolor as [c|]; cbn; intros [= <- <-]; cbn;
      split; try reflexivity.
    now exists c, GenericPen.
Qed.

Lemma paint_loop_effect layer vector strokes : forall pencolor w w' r,
  paint_loop PEN_MAPPING layer vector pencolor w strokes = (w', r) ->
  exists calls rest,
    canvas w' = canvas w ++ calls
    /\ strokes = map call_stroke calls ++ rest
    /\ (r = None -> rest = [])
    /\ Forall (fun c => call_layer c = layer /\ call_vector c = vector) calls
    /\ (r = None ->
        log w' = log w ++ map unknown_record
                            (List.filter (unknown_pen PEN_MAPPING) strokes)).
Proof.
  induction strokes as [|stroke more IH]; intros pencolor w w' r; cbn.
  - intros [= <- <-]. exists [], []. rewrite !app_nil_r. repeat split.
    constructor.
  - destruct (paint_one PEN_MAPPING layer vector pencolor w stroke)
      as [w1 [pc|e]] eqn:P.
    + destruct (paint_one_effect _ _ _ _ _ _ _ P)
        as [Hlog (c & penclass & -> & Hcv)].
      intros Hl. destruct (IH _ _ _ _ Hl) as (calls & rest & Hc & Hs & Hr & Hf & Hg).
      exists (mkPaintCall penclass vector layer c stroke :: calls), rest.
      split; [rewrite Hc, Hcv; now rewrite <- app_assoc|].
      split; [cbn; now rewrite Hs at 1|].
      split; [exact Hr|]. split; [constructor; [now split | exact Hf]|].
      intros Hn. rewrite (Hg Hn), Hlog, <- app_assoc. f_equal.
      now destruct (unknown_pen PEN_MAPPING stroke).
    + destruct (paint_one_effect _ _ _ _ _ _ _ P) as [_ Hcv].
      intros [= <- <-]. exists [], (stroke :: more).
      rewrite app_nil_r. repeat split; try discriminate; try assumption.
      constructor.
Qed.

Lemma paint_one_paintable layer vector pencolor w stroke :
  paintable PEN_MAPPING stroke = true ->
  exists w' c,
    paint_one PEN_MAPPING layer vector pencolor w stroke = (w', Py.Ok (Some c)).
Proof.
  unfold paintable. intros Hp.
  destruct (PEN_MAPPING !! stroke_pen stroke) as [penclass|] eqn:E;
    [|discriminate].
  unfold paint_one. rewrite (resolve_known _ _ _ _ _ E).
  assert (exists c,
    Py.index (match penclass with
              | HighlighterPen => highlight_colors
              | _ => colors
              end) (stroke_color stroke) = Py.Ok c) as [c Hc].
  { destruct penclass; apply andb_true_iff in Hp as [H0 H1];
      apply Z.leb_le in H0; apply Z.ltb_lt in H1;
      match goal with |- context [Py.index ?t _] =>
        destruct (index_in_range t (stroke_color stroke)) as [c [_ Hc]];
          [cbn; lia | now exists c]
      end. }
  rewrite Hc. cbn. eauto.
Qed.

Lemma paint_loop_succeeds layer vector strokes : forall pencolor w,
  (is_Some pencolor
   \/ match strokes with
      | [] => True
      | stroke :: _ => paintable PEN_MAPPING stroke = true
      end) ->
  Forall (fun s => paintable PEN_MAPPING s || unknown_pen PEN_MAPPING s = true)
         strokes ->
  snd (paint_loop PEN_MAPPING layer vector pencolor w strokes) = None.
Proof.
  induction strokes as [|stroke more IH]; intros pencolor w Hstart Hall;
    [reflexivity|].
  apply Forall_cons in Hall as [Hs Hall]. cbn.
  destruct (paintable PEN_MAPPING stroke) eqn:Hp.
  - destruct (paint_one_paintable layer vector pencolor w stroke Hp)
      as (w' & c & ->).
    apply IH; [left; eauto | exact Hall].
  - destruct Hstart as [[c ->]|Habs]; [|discriminate].
    cbn in Hs. unfold unknown_pen in Hs.
    destruct (PEN_MAPPING !! stroke_pen stroke) eqn:E; [discriminate|].
    rewrite (paint_one_unknown_bound _ _ _ _ _ _ E).
    apply IH; [left; eauto | exact Hall].
Qed.

End PaintingMore.

(** X16: [paint_strokes] only appends to the canvas, one call per stroke
    and in stroke order, each for this layer and with the given vector
    flag; the strokes painted are a prefix of the layer's strokes, and all
    of them when no exception is raised. *)
Theorem paint_strokes_trace {G : Type} (PEN_MAPPING : gmap Z PenClass)
    (layer : DocumentPageLayer G) (w : World) (vector : bool) :
  let res := paint_strokes PEN_MAPPING layer w vector in
  exists calls rest,
    canvas (fst res) = canvas w ++ calls
    /\ strokes layer = map call_stroke calls ++ rest
    /\ (snd res = None -> rest = [])
    /\ Forall (fun c => call_layer c = name layer /\ call_vector c = vector)
              calls.
Proof.
  cbn zeta. unfold paint_strokes.
  destruct (paint_loop PEN_MAPPING (name layer) vector None w (strokes layer))
    as [w' r] eqn:P.
  destruct (paint_loop_effect _ _ _ _ _ _ _ _ P)
    as (calls & rest & Hc & Hs & Hr & Hf & _).
  exists calls, rest. cbn. repeat split; assumption.
Qed.

(** X17: when [paint_strokes] returns, the log has gained exactly one
    error record per stroke with an unknown pen code, in stroke order, and
    nothing else. *)
Theorem paint_strokes_log {G : Type} (PEN_MAPPING : gmap Z PenClass)
    (layer : DocumentPageLayer G) (w : World) (vector : bool) :
  snd (paint_strokes PEN_MAPPING layer w vector) = None ->
  log (fst (paint_strokes PEN_MAPPING layer w vector))
  = log w ++ map unknown_record
               (List.filter (unknown_pen PEN_MAPPING) (strokes layer)).
Proof.
  unfold paint_strokes.
  destruct (paint_loop PEN_MAPPING (name layer) vector None w (strokes layer))
    as [w' r] eqn:P.
  destruct (paint_loop_effect _ _ _ _ _ _ _ _ P)
    as (calls & rest & _ & _ & _ & _ & Hg).
  exact Hg.
Qed.

Lemma paint_strokes_log_witness :
  log (fst (paint_strokes sample_mapping
              (sample_layer [ sample_stroke 4 0; sample_stroke 99 7;
                              sample_stroke 5 1; sample_stroke 42 0 ])
              empty_world true))
  = [] ++ [ ("ERROR", "Unknown pen code 99"); ("ERROR", "Unknown pen code 42") ].
Proof.
  apply (paint_strokes_log sample_mapping
           (sample_layer [ sample_stroke 4 0; sample_stroke 99 7;
                           sample_stroke 5 1; sample_stroke 42 0 ])
           empty_world true).
  vm_compute; reflexivity.
Defined.

(** X18: painting a layer raises nothing when its first stroke has a
    known pen and a color code within the table of that pen, and every
    later stroke either is of that kind or has an unknown pen. *)
Theorem paint_strokes_succeeds {G : Type} (PEN_MAPPING : gmap Z PenClass)
    (layer : DocumentPageLayer G) (w : World) (vector : bool) stroke rest :
  strokes layer = stroke :: rest ->
  paintable PEN_MAPPING stroke = true ->
  forallb (fun s => paintable PEN_MAPPING s || unknown_pen PEN_MAPPING s) rest
  = true ->
  snd (paint_strokes PEN_MAPPING layer w vector) = None.
Proof.
  intros Hs Hp Hall. unfold paint_strokes. rewrite Hs.
  apply paint_loop_succeeds; [now right|].
  constructor; [now rewrite Hp|].
  apply Forall_forall. intros s Hin.
  apply (proj1 (forallb_forall _ _) Hall). now apply list_elem_of_In.
Qed.

Lemma paint_strokes_succeeds_witness :
  snd (paint_strokes sample_mapping
         (sample_layer [ sample_stroke 5 4; sample_stroke 99 100;
                         sample_stroke 4 7 ])
         empty_world true)
  = None.
Proof.
  apply (paint_strokes_succeeds sample_mapping
           (sample_layer [ sample_stroke 5 4; sample_stroke 99 100;
                           sample_stroke 4 7 ])
           empty_world true (sample_stroke 5 4)
           [ sample_stroke 99 100; sample_stroke 4 7 ]);
    vm_compute; reflexivity.
Defined.

(* ===================================================================== *)
(** * Properties of page rendering *)
(* ===================================================================== *)

Section PageRenderFacts.
Context `{RenderEnv}.
Variable PEN_MAPPING : gmap Z PenClass.

Lemma render_layer_bitmap {G} pw (layer : DocumentPageLayer G) :
  render_layer PEN_MAPPING false pw layer = (pw, Some Py.AssertionError).
Proof.
  unfold render_layer. cbn. rewrite app_nil_r. now destruct pw.
Qed.

Lemma render_layer_effect {G} vector pw (layer : DocumentPageLayer G) pw' r :
  render_layer PEN_MAPPING vector pw layer = (pw', r) ->
  exists calls rest,
    page_canvas pw' = page_canvas pw ++ map Paint calls
    /\ strokes layer = map call_stroke calls ++ rest
    /\ (r = None -> rest = []).
Proof.
  destruct vector.
  - unfold render_layer, render_to_painter, paint_strokes.
    destruct (paint_loop PEN_MAPPING (name layer) true None
                (mkWorld (page_log pw) []) (strokes layer)) as [w' r'] eqn:P.
    intros [= <- <-].
    destruct (paint_loop_effect _ _ _ _ _ _ _ _ P)
      as (calls & rest & Hc & Hs & Hr & _).
    exists calls, rest. cbn in Hc. cbn. rewrite Hc. now repeat split.
  - rewrite render_layer_bitmap. intros [= <- <-].
    exists [], (strokes layer). cbn. rewrite app_nil_r.
    repeat split. discriminate.
Qed.

Lemma render_layers_effect {G} vector (ls : list (DocumentPageLayer G)) :
  forall pw pw' r,
    render_layers PEN_MAPPING vector pw ls = (pw', r) ->
    exists calls rest,
      page_canvas pw' = page_canvas pw ++ map Paint calls
      /\ concat (map strokes ls) = map call_stroke calls ++ rest
      /\ (r = None -> rest = []).
Proof.
  induction ls as [|layer more IH]; intros pw pw' r; cbn.
  - intros [= <- <-]. exists [], []. cbn. now rewrite app_nil_r.
  - destruct (render_layer PEN_MAPPING vector pw layer) as [pw1 [e|]] eqn:L.
    + intros [= <- <-].
      destruct (render_layer_effect _ _ _ _ _ L) as (calls & rest & Hc & Hs & _).
      exists calls, (rest ++ concat (map strokes more)).
      split; [exact Hc|]. split; [|discriminate].
      rewrite Hs. now rewrite <- app_assoc.
    + intros Hl.
      destruct (render_layer_effect _ _ _ _ _ L) as (c1 & r1 & Hc1 & Hs1 & Hr1).
      destruct (IH _ _ _ Hl) as (c2 & r2 & Hc2 & Hs2 & Hr2).
      rewrite (Hr1 eq_refl), app_nil_r in Hs1.
      exists (c1 ++ c2), r2.
      split; [rewrite Hc2, Hc1, map_app; now rewrite <- app_assoc|].
      split; [|exact Hr2].
      rewrite Hs1, Hs2, map_app. now rewrite <- app_assoc.
Qed.

End PageRenderFacts.

(** X19: a page without layers renders in bitmap mode like in vector
    mode, up to [showPage]; a page with a layer does not: the first layer
    fails its assertion after the template and the frame have been drawn,
    no stroke is painted and the page is never finished. *)
Theorem page_render_bitmap {J G : Type} `{RenderEnv}
    (PEN_MAPPING : gmap Z PenClass) (page : DocumentPage J G)
    (pw : PageWorld) (template_alpha : float) :
  let framed :=
    emit (emit pw (template_ops (page_template page) template_alpha))
         [Translate 0 PDFHEIGHT; Scale PTPERPX (- PTPERPX)%float] in
  (page_layers page = [] ->
   forall vector,
     page_render_to_painter PEN_MAPPING page pw vector template_alpha
     = (emit framed [ShowPage], None))
  /\ (page_layers page <> [] ->
      page_render_to_painter PEN_MAPPING page pw false template_alpha
      = (framed, Some Py.AssertionError)).
Proof.
  cbn zeta. unfold page_render_to_painter. split.
  - intros -> vector. reflexivity.
  - destruct (page_layers page) as [|layer more]; [congruence|]. intros _.
    cbn [render_layers]. now rewrite render_layer_bitmap.
Qed.

(** X20: the order of a page's drawing.  The canvas receives, after what
    it held, the template operations, the translation by the page height,
    the flip and scale, then the paint calls, and [showPage] last if
    nothing was raised; the strokes painted are a prefix of the strokes of
    the layers in layer order, and all of them if nothing was raised. *)
Theorem page_render_order {J G : Type} `{RenderEnv}
    (PEN_MAPPING : gmap Z PenClass) (page : DocumentPage J G)
    (pw : PageWorld) (vector : bool) (template_alpha : float) :
  let res := page_render_to_painter PEN_MAPPING page pw vector template_alpha in
  exists calls rest,
    page_canvas (fst res)
    = page_canvas pw
      ++ template_ops (page_template page) template_alpha
      ++ [Translate 0 PDFHEIGHT; Scale PTPERPX (- PTPERPX)%float]
      ++ map Paint calls
      ++ (match snd res with None => [ShowPage] | Some _ => [] end)
    /\ concat (map strokes (page_layers page)) = map call_stroke calls ++ rest
    /\ (snd res = None -> rest = []).
Proof.
  cbn zeta. unfold page_render_to_painter.
  destruct (render_layers PEN_MAPPING vector _ (page_layers page))
    as [pw' r] eqn:L.
  destruct (render_layers_effect _ _ _ _ _ _ L) as (calls & rest & Hc & Hs & Hr).
  exists calls, rest. cbn [emit page_canvas] in Hc.
  destruct r as [e|]; cbn [fst snd emit page_canvas]; rewrite Hc;
    repeat split; try assumption; try discriminate;
    rewrite <- ?app_assoc; cbn; now rewrite ?app_nil_r.
Qed.

Example page_render_sample :
  page_canvas
    (fst (page_render_to_painter (H := sample_env) sample_mapping
            (mkDocumentPage (J := list (list Stroke)) ∅ 0 "{ID}/p1.rm" 5
               None None (Some "Lined.svg")
               [ sample_layer [sample_stroke 4 0] ])
            empty_page_world true 0.5))
  = [ DrawBackground "Lined.svg" (445 / 1404) (445 / 1404);
      SaveState; SetFillColorRGB 1 1 1; SetFillAlpha 0.5;
      Rect 0 0 445 594 true false; RestoreState;
      Translate 0 594; Scale 0.25 (-0.25);
      Paint (mkPaintCall (OtherPen "FinelinerPen") true "Layer 1"
               (rgb (56/255) (57/255) (56/255)) (sample_stroke 4 0));
      ShowPage ].
Proof. vm_compute. reflexivity. Qed.

(** X21: clustering returns its input unchanged exactly when no shape
    intersects an earlier shape of its type; otherwise the result is
    strictly shorter. *)
Theorem grouping_func_identity_iff {G : Type} `{Geometry G}
    (pathset : list (string * G)) :
  (grouping_func pathset = pathset <-> separated pathset)
  /\ (length (grouping_func pathset) < length pathset
      <-> ~ separated pathset).
Proof.
  assert (grouping_func pathset = pathset <-> separated pathset) as Hiff.
  { split.
    - intros <-. apply grouping_func_separated.
    - intros Hs. now apply grouping_func_fixed. }
  split; [exact Hiff|]. split.
  - intros Hlt Hs. apply Hiff in Hs. rewrite Hs in Hlt. lia.
  - intros Hns. rewrite grouping_func_eq.
    pose proof (pass_length pathset) as Hle.
    destruct (length (pass pathset) =? length pathset) eqn:E.
    + apply Nat.eqb_eq in E. destruct (pass_same_length _ E) as [Hs _].
      contradiction.
    + apply Nat.eqb_neq in E.
      pose proof (pass_length (pass pathset)).
      assert (length (grouping_func (pass pathset)) <= length (pass pathset)).
      { clear. induction (pass pathset) as [l IH]
          using (induction_ltof1 _ (@length _)).
        rewrite grouping_func_eq. pose proof (pass_length l).
        destruct (length (pass l) =? length l) eqn:E; [assumption|].
        apply Nat.eqb_neq in E.
        specialize (IH (pass l)). unfold ltof in IH. lia. }
      lia.
Qed.
